(** * Token-usage analysis script (analyze_tokens.py): model and properties

    The script loads a promptfoo results document, aggregates token usage,
    cost and latency per provider, ranks the providers by total tokens and
    prints a comparison report.  This file embeds its functions and proves
    (or refutes, with concrete inputs) the statements of its specification.

    Conventions of the embedding:
    - a Python [int] is a [Z];
    - a Python [float] is an element of a type [F] carrying the operations
      the script uses (class [PyFloat]); the instance is IEEE binary64
      (primitive floats), which is what the interpreter computes.  An
      operation on ints whose float result would be beyond the binary64
      range raises OverflowError;
    - a Python [str] is a [string], the bytes of its UTF-8 encoding, which
      standard output accepts as they are;
    - ints are printed in full: the interpreter's limit on the number of
      digits of an int it converts to a str (4300 by default) is not
      modelled, and the statements about the report keep the numbers far
      below it;
    - a Python [dict] keyed by strings is an association list in insertion
      order with distinct keys;
    - the JSON objects of the input are records whose fields are optional,
      an absent key being [None]; a loaded JSON value of another shape is
      kept apart from these ([Misshaped]). *)

From Stdlib Require Import ZArith List String Ascii Bool Lia.
From Stdlib Require Import Permutation DecimalString Floats.
From Stdlib Require Import Sorted.
Import ListNotations.

Open Scope string_scope.
Open Scope Z_scope.

(* ================================================================= *)
(** ** Python strings *)

Module PyStr.

(** [old] is a prefix of [s] (Python [s.startswith(old)]). *)
Fixpoint startswith (old s : string) : bool :=
  match old with
  | EmptyString => true
  | String a old' =>
      match s with
      | EmptyString => false
      | String b s' => Ascii.eqb a b && startswith old' s'
      end
  end.

(** [old] occurs somewhere in [s] (Python [old in s]). *)
Fixpoint occurs (old s : string) : bool :=
  startswith old s ||
  match s with
  | EmptyString => false
  | String _ s' => occurs old s'
  end.

(** Left-to-right scan of [str.replace]: [skip] counts the characters of
    an occurrence of [old] that are still to be dropped. *)
Fixpoint replace_scan (old new : string) (skip : nat) (s : string) : string :=
  match s with
  | EmptyString => EmptyString
  | String c s' =>
      match skip with
      | S k => replace_scan old new k s'
      | O =>
          if startswith old s
          then new ++ replace_scan old new (Nat.pred (String.length old)) s'
          else String c (replace_scan old new O s')
      end
  end.

(** [s.replace(old, new)] for a non-empty [old]: every non-overlapping
    occurrence of [old], found from the left, is replaced by [new]. *)
Definition replace (old new s : string) : string :=
  replace_scan old new O s.

Fixpoint spaces (n : nat) : string :=
  match n with
  | O => EmptyString
  | S k => String " " (spaces k)
  end.

(** A byte that continues a character of the UTF-8 encoding: [10xxxxxx]. *)
Definition continuation (c : ascii) : bool :=
  match c with
  | Ascii _ _ _ _ _ _ b6 b7 => b7 && negb b6
  end.

(** [len(s)], the number of characters (code points) of [s]: every byte of
    the encoding but the continuation bytes starts one. *)
Fixpoint len (s : string) : nat :=
  match s with
  | EmptyString => O
  | String c s' => if continuation c then len s' else S (len s')
  end.

(** [format(s, '<w')] and [format(s, '>w')]: padding up to [w] characters,
    never truncation. *)
Definition ljust (w : nat) (s : string) : string :=
  s ++ spaces (w - len s).

Definition rjust (w : nat) (s : string) : string :=
  spaces (w - len s) ++ s.

(** [s.endswith(suffix)]: [suffix] is [s] or the end of [s]. *)
Fixpoint endswith (suffix s : string) : bool :=
  String.eqb suffix s ||
  match s with
  | EmptyString => false
  | String _ s' => endswith suffix s'
  end.

(** [s[-1]], when [s] is not empty. *)
Fixpoint last_char (s : string) : option ascii :=
  match s with
  | EmptyString => None
  | String c s' =>
      match last_char s' with
      | Some c' => Some c'
      | None => Some c
      end
  end.

(** [c * n] for a one-character string [c]. *)
Fixpoint repeat_char (c : ascii) (n : nat) : string :=
  match n with
  | O => EmptyString
  | S k => String c (repeat_char c k)
  end.

(** [str(n)] for a non-negative [n]. *)
Definition digits (n : Z) : string :=
  NilZero.string_of_uint (N.to_uint (Z.to_N n)).

(** [str(z)]. *)
Definition str_int (z : Z) : string :=
  if z <? 0 then "-" ++ digits (- z) else digits z.

(** Thousands separators, on the reversed digits; [k] is the number of
    digits already written in the current group. *)
Fixpoint commas_rev (l : list ascii) (k : nat) : list ascii :=
  match l with
  | [] => []
  | c :: l' =>
      match k with
      | 3%nat => ","%char :: c :: commas_rev l' 1
      | _ => c :: commas_rev l' (S k)
      end
  end.

Definition group3 (ds : string) : string :=
  string_of_list_ascii (rev (commas_rev (rev (list_ascii_of_string ds)) 0)).

(** [format(z, ',')]. *)
Definition format_int_commas (z : Z) : string :=
  if z <? 0 then "-" ++ group3 (digits (- z)) else group3 (digits z).

(** [format(x, '.df')] for the non-negative rational [num / den]
    ([0 < den]), with sign [neg]: rounded to [d] decimals, ties to even. *)
Definition format_fixed_ratio (neg : bool) (num den : Z) (d : nat) : string :=
  let scale := 10 ^ Z.of_nat d in
  let scaled := num * scale in
  let q := scaled / den in
  let r := scaled mod den in
  let n := if 2 * r <? den then q
           else if den <? 2 * r then q + 1
           else if Z.even q then q else q + 1 in
  let frac := digits (n mod scale) in
  (if neg then "-" else "") ++ digits (n / scale) ++
  match d with
  | O => ""
  | _ => "." ++ repeat_char "0" (d - String.length frac) ++ frac
  end.

End PyStr.

(* ================================================================= *)
(** ** Python floats *)

(** The float operations the script performs. *)
Class PyFloat (F : Type) := {
  f_zero : F;                       (* the literal 0.0 *)
  f_add : F -> F -> F;              (* x + y *)
  f_mul : F -> F -> F;              (* x * y *)
  f_div : F -> F -> F;              (* x / y, y not 0.0 *)
  f_of_int : Z -> option F;         (* float(n); None: OverflowError *)
  f_truediv : Z -> Z -> option F;   (* a / b on ints, b <> 0;
                                       None: OverflowError *)
  f_fixed : nat -> F -> string      (* format(x, '.df') *)
}.

(** *** IEEE binary64, as in the interpreter *)

Module Binary64.

Definition SF_of_Z (z : Z) : spec_float :=
  match z with
  | Z0 => S754_zero false
  | Zpos p => S754_finite false p 0
  | Zneg p => S754_finite true p 0
  end.

(** [a / b] on ints is the quotient rounded once to binary64; when it
    rounds to an infinity the interpreter raises OverflowError. *)
Definition truediv (a b : Z) : option float :=
  match SFdiv prec emax (SF_of_Z a) (SF_of_Z b) with
  | S754_infinity _ => None
  | x => Some (SF2Prim x)
  end.

(** [float(n)]: [n] rounded to binary64; when it rounds to an infinity the
    interpreter raises OverflowError. *)
Definition of_int (n : Z) : option float :=
  match binary_normalize prec emax n 0 false with
  | S754_infinity _ => None
  | x => Some (SF2Prim x)
  end.

Definition fixed (d : nat) (x : float) : string :=
  match Prim2SF x with
  | S754_nan => "nan"
  | S754_infinity s => if s then "-inf" else "inf"
  | S754_zero s => PyStr.format_fixed_ratio s 0 1 d
  | S754_finite s m e =>
      if 0 <=? e
      then PyStr.format_fixed_ratio s (Zpos m * 2 ^ e) 1 d
      else PyStr.format_fixed_ratio s (Zpos m) (2 ^ (- e)) d
  end.

#[global] Instance float_PyFloat : PyFloat float := {
  f_zero := 0%float;
  f_add := PrimFloat.add;
  f_mul := PrimFloat.mul;
  f_div := PrimFloat.div;
  f_of_int := of_int;
  f_truediv := truediv;
  f_fixed := fixed
}.

(** *** Vocabulary of the rounding

    The rational [N / D] ([0 <= N], [0 < D]) as the rounding of the format
    reads it: its integer part, whether its fraction is at least one half,
    and whether that fraction is neither 0 nor one half. *)
Definition record_of (N D : Z) : shr_record :=
  {| shr_m := N / D;
     shr_r := D <=? 2 * (N mod D);
     shr_s := negb (N mod D =? 0) && negb (2 * (N mod D) =? D) |}.

(** [N / D] rounded to the nearest integer, ties to even. *)
Definition rne (N D : Z) : Z :=
  round_nearest_even (shr_m (record_of N D))
                     (loc_of_shr_record (record_of N D)).

End Binary64.

(* ================================================================= *)
(** ** Python dicts keyed by strings, in insertion order *)

Definition dict (V : Type) : Type := list (string * V).

Module PyDict.
Section Ops.
Context {V : Type}.

(** [d.get(k)]. *)
Fixpoint get (k : string) (d : dict V) : option V :=
  match d with
  | [] => None
  | (k', v) :: d' => if String.eqb k' k then Some v else get k d'
  end.

(** [d.get(k, default)]. *)
Definition get_default (k : string) (default : V) (d : dict V) : V :=
  match get k d with
  | Some v => v
  | None => default
  end.

(** [d[k] = v]: an existing key keeps its position, a new one is appended. *)
Fixpoint set (k : string) (v : V) (d : dict V) : dict V :=
  match d with
  | [] => [(k, v)]
  | (k', v') :: d' =>
      if String.eqb k' k then (k', v) :: d' else (k', v') :: set k v d'
  end.

(** [defaultdict(lambda: default)]: [d[k]] inserts [default] under a
    missing [k]; the entry found is then updated in place by [f]. *)
Fixpoint update_default (default : V) (k : string) (f : V -> V) (d : dict V)
  : dict V :=
  match d with
  | [] => [(k, f default)]
  | (k', v) :: d' =>
      if String.eqb k' k then (k', f v) :: d'
      else (k', v) :: update_default default k f d'
  end.

Definition keys (d : dict V) : list string := map fst d.

(** The keys of a dict are distinct. *)
Definition wf (d : dict V) : Prop := NoDup (keys d).

End Ops.
End PyDict.

(** Field access with a default, [obj.get(key, default)] on a record
    whose field [key] is optional. *)
Definition or_default {A : Type} (field : option A) (default : A) : A :=
  match field with
  | Some v => v
  | None => default
  end.

(* ================================================================= *)
(** ** Exceptions and standard output *)

(** The exception classes that occur (subclasses of [Exception]). *)
Inductive error : Type :=
  | FileNotFoundError
  | JSONDecodeError (detail : string)  (* str(e) is [detail] *)
  | ZeroDivisionError
  | OverflowError
  | KeyError
  | OtherError (name : string).        (* any other class, by its name *)

(** What ends a computation early: [sys.exit(status)] or an exception. *)
Inductive exn : Type :=
  | SystemExit (status : Z)
  | Exception (e : error).

(** A computation that returns or raises. *)
Inductive result (A : Type) : Type :=
  | Return (a : A)
  | Raise (e : exn).
Arguments Return {A} a.
Arguments Raise {A} e.

Definition rbind {A B : Type} (r : result A) (k : A -> result B) : result B :=
  match r with
  | Return a => k a
  | Raise e => Raise e
  end.

(** A computation that also prints: it maps the strings printed so far
    (one per call of [print]) to its outcome and the strings printed
    after it. *)
Definition IO (A : Type) : Type := list string -> result A * list string.

Definition ret {A : Type} (a : A) : IO A := fun out => (Return a, out).

Definition raise {A : Type} (e : exn) : IO A := fun out => (Raise e, out).

Definition bind {A B : Type} (m : IO A) (k : A -> IO B) : IO B :=
  fun out =>
    match m out with
    | (Return a, out') => k a out'
    | (Raise e, out') => (Raise e, out')
    end.

Definition print (s : string) : IO unit :=
  fun out => (Return tt, (out ++ [s])%list).

Definition lift {A : Type} (r : result A) : IO A := fun out => (r, out).

Declare Scope io_scope.
Delimit Scope io_scope with io.
Notation "x <- m ;; k" := (bind m (fun x => k))
  (at level 61, m at next level, right associativity) : io_scope.
Notation "m ;; k" := (bind m (fun _ => k))
  (at level 61, right associativity) : io_scope.

(** [for x in l: body(x)]. *)
Fixpoint for_each {A : Type} (l : list A) (body : A -> IO unit) : IO unit :=
  match l with
  | [] => ret tt
  | x :: l' => bind (body x) (fun _ => for_each l' body)
  end.

(** The line feed. *)
Definition nl : string := String "010"%char EmptyString.

(* ================================================================= *)
(** ** The input document

    [{ results: { results: [ ResultRecord, ... ] } }], every key optional. *)

Record TokenUsage : Type := {
  total : option Z;
  prompt : option Z;
  completion : option Z
}.

Record TokensUsed : Type := {
  tokensUsed_total : option Z
}.

Record GradingResult : Type := {
  tokensUsed : option TokensUsed
}.

Record Provider : Type := {
  id_key : option string
}.

Section Program.
Context {F : Type} `{PyFloat F}.

Record Response : Type := {
  tokenUsage : option TokenUsage;
  response_cost : option F
}.

Record ResultRecord : Type := {
  provider : option Provider;
  response : option Response;
  gradingResult : option GradingResult;
  latencyMs : option Z
}.

Record ResultsObject : Type := {
  inner_results : option (list ResultRecord)
}.

Record Document : Type := {
  results : option ResultsObject
}.

(** What [json.load] returns: a document of the shape above, or a JSON
    value of another shape on which the statements after the load raise
    the exception [e], which nothing catches, having printed [printed]:
    an AttributeError where a key holds null or a number instead of an
    object, a TypeError where a count is a string, an OverflowError where
    a cost is an integer beyond the floats.  (A value of another shape
    that the script processes to the end, such as a count written with a
    fraction, is not covered.) *)
Inductive loaded : Type :=
  | Shaped (results_data : Document)
  | Misshaped (e : error) (printed : list string).

(** The empty object [{}] at each of these types. *)
Definition empty_TokenUsage : TokenUsage :=
  {| total := None; prompt := None; completion := None |}.
Definition empty_TokensUsed : TokensUsed := {| tokensUsed_total := None |}.
Definition empty_GradingResult : GradingResult := {| tokensUsed := None |}.
Definition empty_Provider : Provider := {| id_key := None |}.
Definition empty_Response : Response :=
  {| tokenUsage := None; response_cost := None |}.
Definition empty_ResultsObject : ResultsObject := {| inner_results := None |}.

(* ================================================================= *)
(** ** Aggregator: [extract_provider_data] *)

(** The per-provider accumulator. *)
Record metrics : Type := {
  total_tokens : Z;
  prompt_tokens : Z;
  completion_tokens : Z;
  assertion_tokens : Z;
  cost : F;
  test_count : Z;
  total_latency_ms : Z
}.

(** The value the [defaultdict] factory builds. *)
Definition default_metrics : metrics :=
  {| total_tokens := 0; prompt_tokens := 0; completion_tokens := 0;
     assertion_tokens := 0; cost := f_zero; test_count := 0;
     total_latency_ms := 0 |}.

(** [data[field] += v], one function per field. *)
Definition add_total_tokens (v : Z) (m : metrics) : metrics :=
  {| total_tokens := total_tokens m + v; prompt_tokens := prompt_tokens m;
     completion_tokens := completion_tokens m;
     assertion_tokens := assertion_tokens m; cost := cost m;
     test_count := test_count m; total_latency_ms := total_latency_ms m |}.

Definition add_prompt_tokens (v : Z) (m : metrics) : metrics :=
  {| total_tokens := total_tokens m; prompt_tokens := prompt_tokens m + v;
     completion_tokens := completion_tokens m;
     assertion_tokens := assertion_tokens m; cost := cost m;
     test_count := test_count m; total_latency_ms := total_latency_ms m |}.

Definition add_completion_tokens (v : Z) (m : metrics) : metrics :=
  {| total_tokens := total_tokens m; prompt_tokens := prompt_tokens m;
     completion_tokens := completion_tokens m + v;
     assertion_tokens := assertion_tokens m; cost := cost m;
     test_count := test_count m; total_latency_ms := total_latency_ms m |}.

Definition add_assertion_tokens (v : Z) (m : metrics) : metrics :=
  {| total_tokens := total_tokens m; prompt_tokens := prompt_tokens m;
     completion_tokens := completion_tokens m;
     assertion_tokens := assertion_tokens m + v; cost := cost m;
     test_count := test_count m; total_latency_ms := total_latency_ms m |}.

Definition add_cost (v : F) (m : metrics) : metrics :=
  {| total_tokens := total_tokens m; prompt_tokens := prompt_tokens m;
     completion_tokens := completion_tokens m;
     assertion_tokens := assertion_tokens m; cost := f_add (cost m) v;
     test_count := test_count m; total_latency_ms := total_latency_ms m |}.

Definition add_test_count (v : Z) (m : metrics) : metrics :=
  {| total_tokens := total_tokens m; prompt_tokens := prompt_tokens m;
     completion_tokens := completion_tokens m;
     assertion_tokens := assertion_tokens m; cost := cost m;
     test_count := test_count m + v; total_latency_ms := total_latency_ms m |}.

Definition add_total_latency_ms (v : Z) (m : metrics) : metrics :=
  {| total_tokens := total_tokens m; prompt_tokens := prompt_tokens m;
     completion_tokens := completion_tokens m;
     assertion_tokens := assertion_tokens m; cost := cost m;
     test_count := test_count m; total_latency_ms := total_latency_ms m + v |}.

(** [provider_data[provider_id][field] += v] on the defaultdict. *)
Definition bump (provider_id : string) (f : metrics -> metrics)
    (provider_data : dict metrics) : dict metrics :=
  PyDict.update_default default_metrics provider_id f provider_data.

(** One iteration of the loop over the results. *)
Definition process_result (provider_data : dict metrics)
    (result : ResultRecord) : dict metrics :=
  let provider_id :=
    or_default (id_key (or_default (provider result) empty_Provider))
               "unknown" in
  let response := or_default (response result) empty_Response in
  let token_usage := or_default (tokenUsage response) empty_TokenUsage in
  let grading_result :=
    or_default (gradingResult result) empty_GradingResult in
  let assertion_tokens :=
    or_default
      (tokensUsed_total
         (or_default (tokensUsed grading_result) empty_TokensUsed)) 0 in
  let d1 := bump provider_id
              (add_total_tokens (or_default (total token_usage) 0))
              provider_data in
  let d2 := bump provider_id
              (add_prompt_tokens (or_default (prompt token_usage) 0)) d1 in
  let d3 := bump provider_id
              (add_completion_tokens (or_default (completion token_usage) 0))
              d2 in
  let d4 := bump provider_id (add_assertion_tokens assertion_tokens) d3 in
  let d5 := bump provider_id
              (add_cost (or_default (response_cost response) f_zero)) d4 in
  let d6 := bump provider_id (add_test_count 1) d5 in
  bump provider_id
       (add_total_latency_ms (or_default (latencyMs result) 0)) d6.

(** The sequence the loop walks:
    [results_data.get('results', {}).get('results', [])]. *)
Definition result_records (results_data : Document) : list ResultRecord :=
  or_default
    (inner_results (or_default (results results_data) empty_ResultsObject))
    [].

Definition extract_provider_data (results_data : Document) : dict metrics :=
  fold_left process_result (result_records results_data) [].

(* ================================================================= *)
(** ** Display names: [format_provider_name] *)

Definition format_provider_name (provider_id : string) : string :=
  let name :=
    PyStr.replace "openai:" ""
      (PyStr.replace "openai:chat:" ""
         (PyStr.replace "anthropic:" "" provider_id)) in
  name.

(* ================================================================= *)
(** ** Ranker: [calculate_percentages] *)

(** [max(items, key=lambda x: x[1]['total_tokens'])] on the non-empty
    sequence [best :: items]: the first of the items of greatest key. *)
Fixpoint max_by_total_tokens (best : string * metrics)
    (items : list (string * metrics)) : string * metrics :=
  match items with
  | [] => best
  | x :: rest =>
      if total_tokens (snd best) <? total_tokens (snd x)
      then max_by_total_tokens x rest
      else max_by_total_tokens best rest
  end.

(** [a / b] on ints: the divisor is tested first, then the quotient is
    rounded. *)
Definition py_truediv (a b : Z) : result F :=
  if b =? 0 then Raise (Exception ZeroDivisionError)
  else match f_truediv a b with
       | Some q => Return q
       | None => Raise (Exception OverflowError)
       end.

(** The int operand of an operation with a float is converted first. *)
Definition py_float (n : Z) : result F :=
  match f_of_int n with
  | Some y => Return y
  | None => Raise (Exception OverflowError)
  end.

(** [x * n] for a float [x] and an int [n]. *)
Definition py_mul_int (x : F) (n : Z) : result F :=
  rbind (py_float n) (fun y => Return (f_mul x y)).

(** [x / n] for a float [x] and an int [n]: the int is converted, then the
    divisor is tested. *)
Definition py_div_int (x : F) (n : Z) : result F :=
  rbind (py_float n) (fun y =>
    if n =? 0 then Raise (Exception ZeroDivisionError)
    else Return (f_div x y)).

(** One iteration of the loop that fills [percentages]. *)
Definition percentage_step (max_tokens : Z) (acc : result (dict F))
    (item : string * metrics) : result (dict F) :=
  rbind acc (fun percentages =>
    let provider_id := fst item in
    let data := snd item in
    let tokens := total_tokens data in
    if tokens =? max_tokens
    then Return (PyDict.set provider_id f_zero percentages)
    else
      rbind (py_truediv (max_tokens - tokens) max_tokens) (fun q =>
      rbind (py_mul_int q 100) (fun savings =>
        Return (PyDict.set provider_id savings percentages)))).

Definition calculate_percentages (provider_data : dict metrics)
  : result (dict F) :=
  match provider_data with
  | [] => Return []
  | first :: rest =>
      let max_tokens_provider := max_by_total_tokens first rest in
      let max_tokens := total_tokens (snd max_tokens_provider) in
      if max_tokens =? 0 then Return []
      else fold_left (percentage_step max_tokens) provider_data (Return [])
  end.

(* ================================================================= *)
(** ** Reporter: [print_comparison_table] *)

(** [sorted(items, key=lambda x: x[1]['total_tokens'], reverse=True)]:
    descending and stable, items of equal key keep their order. *)
Fixpoint insert_desc (x : string * metrics) (l : list (string * metrics))
  : list (string * metrics) :=
  match l with
  | [] => [x]
  | y :: l' =>
      if total_tokens (snd x) <? total_tokens (snd y)
      then y :: insert_desc x l'
      else x :: l
  end.

Fixpoint sorted_desc (l : list (string * metrics)) : list (string * metrics) :=
  match l with
  | [] => []
  | x :: l' => insert_desc x (sorted_desc l')
  end.

(** The marker of the top row, a star (U+2B50, three bytes) in it. *)
Definition most_indicator : string :=
  " " ++ String "226"%char (String "173"%char (String "144"%char " (Most)")).

(** One row of the table. *)
Definition table_row (max_provider_id : string) (percentages : dict F)
    (item : string * metrics) : string :=
  let provider_id := fst item in
  let data := snd item in
  let provider_name := format_provider_name provider_id in
  let savings := PyDict.get_default provider_id f_zero percentages in
  let indicator :=
    if String.eqb provider_id max_provider_id then most_indicator else "" in
  PyStr.ljust 50 provider_name ++ " " ++
  PyStr.rjust 14 (PyStr.format_int_commas (total_tokens data)) ++ " " ++
  PyStr.rjust 11 (f_fixed 6 (cost data)) ++ " " ++
  PyStr.rjust 11 (f_fixed 2 savings) ++ "% " ++
  PyStr.rjust 7 (PyStr.str_int (test_count data)) ++ indicator.

Definition table_header : string :=
  PyStr.ljust 50 "Provider" ++ " " ++ PyStr.ljust 15 "Total Tokens" ++ " " ++
  PyStr.ljust 12 "Cost ($)" ++ " " ++ PyStr.ljust 12 "Savings %" ++ " " ++
  PyStr.ljust 8 "Tests".

Definition rule (c : ascii) : string := PyStr.repeat_char c 100.

Local Open Scope io_scope.

(** One provider of the detailed breakdown. *)
Definition breakdown_item (item : string * metrics) : IO unit :=
  let provider_id := fst item in
  let data := snd item in
  let provider_name := format_provider_name provider_id in
  print (nl ++ provider_name ++ ":") ;;
  print ("  Prompt Tokens:        " ++
         PyStr.format_int_commas (prompt_tokens data)) ;;
  print ("  Completion Tokens:    " ++
         PyStr.format_int_commas (completion_tokens data)) ;;
  print ("  Assertion Tokens:     " ++
         PyStr.format_int_commas (assertion_tokens data)) ;;
  print ("  Total Tokens:         " ++
         PyStr.format_int_commas (total_tokens data)) ;;
  print ("  Total Cost:          $" ++ f_fixed 6 (cost data)) ;;
  print ("  Number of Tests:      " ++ PyStr.str_int (test_count data)) ;;
  if 0 <? test_count data then
    avg_latency <- lift (py_truediv (total_latency_ms data) (test_count data)) ;;
    print ("  Avg Latency:          " ++ f_fixed 0 avg_latency ++ " ms") ;;
    avg_cost_per_test <- lift (py_div_int (cost data) (test_count data)) ;;
    print ("  Avg Cost per Test:    $" ++ f_fixed 6 avg_cost_per_test)
  else ret tt.

(** [provider_data[k]]. *)
Definition getitem (k : string) (provider_data : dict metrics)
  : result metrics :=
  match PyDict.get k provider_data with
  | Some data => Return data
  | None => Raise (Exception KeyError)
  end.

Definition print_comparison_table (provider_data : dict metrics)
    (percentages : dict F) : IO unit :=
  match provider_data with
  | [] => print "No provider data found in results."
  | first :: rest =>
      let max_tokens_provider := max_by_total_tokens first rest in
      let max_provider_id := fst max_tokens_provider in
      let sorted_providers := sorted_desc provider_data in
      print (nl ++ rule "=") ;;
      print "TOKEN USAGE COMPARISON - PROMPTFOO RESULTS" ;;
      print (rule "=") ;;
      print (nl ++ "Most Token-Intensive Provider: " ++
             format_provider_name max_provider_id) ;;
      max_data <- lift (getitem max_provider_id provider_data) ;;
      print ("  Total Tokens: " ++
             PyStr.format_int_commas (total_tokens max_data)) ;;
      print "" ;;
      print table_header ;;
      print (rule "-") ;;
      for_each sorted_providers
        (fun item => print (table_row max_provider_id percentages item)) ;;
      print (rule "-") ;;
      print (nl ++ "DETAILED BREAKDOWN:") ;;
      print (rule "-") ;;
      for_each sorted_providers breakdown_item ;;
      print (nl ++ rule "=")
  end.

(* ================================================================= *)
(** ** Loader and entry point: [load_results], [main] *)

Section Main.

(** What [with open(filepath, 'r', encoding='utf-8') as f: json.load(f)]
    does for each path: it returns the parsed value or raises. *)
Variable json_load_file : string -> error + loaded.

Definition load_results (filepath : string) : IO loaded :=
  match json_load_file filepath with
  | inr results_data => ret results_data
  | inl FileNotFoundError =>
      print ("Error: File '" ++ filepath ++ "' not found.") ;;
      raise (SystemExit 1)
  | inl (JSONDecodeError e) =>
      print ("Error: Invalid JSON in '" ++ filepath ++ "': " ++ e) ;;
      raise (SystemExit 1)
  | inl e => raise (Exception e)
  end.

Definition main (argv : list string) : IO unit :=
  let filepath :=
    if (1 <? List.length argv)%nat then nth 1 argv "" else "results.json" in
  print ("Loading results from: " ++ filepath) ;;
  results_data <- load_results filepath ;;
  match results_data with
  | Misshaped e printed =>
      for_each printed print ;;
      raise (Exception e)
  | Shaped results_data =>
      let provider_data := extract_provider_data results_data in
      match provider_data with
      | [] =>
          print ("No provider data found in results. " ++
                 "Make sure the results file contains test results.") ;;
          raise (SystemExit 1)
      | _ :: _ =>
          percentages <- lift (calculate_percentages provider_data) ;;
          print_comparison_table provider_data percentages
      end
  end.

(** The status the process ends with: 0 when [main] returns, the argument
    of [sys.exit], and 1 for an exception nothing catches. *)
Definition exit_status (r : result unit) : Z :=
  match r with
  | Return _ => 0
  | Raise (SystemExit status) => status
  | Raise (Exception _) => 1
  end.

(** Running the script: the exit status and what was printed. *)
Definition run (argv : list string) : Z * list string :=
  let (r, out) := main argv [] in (exit_status r, out).

End Main.

Local Close Scope io_scope.

(* ================================================================= *)
(** ** The vocabulary of the specification

    What the specification says of a record, worded independently of the
    code: a value is present when every key on the path to it is. *)

Definition opt_bind {A B : Type} (o : option A) (f : A -> option B)
  : option B :=
  match o with
  | Some a => f a
  | None => None
  end.

Fixpoint sum_Z (l : list Z) : Z :=
  match l with
  | [] => 0
  | x :: l' => x + sum_Z l'
  end.

(** The provider a record is attributed to. *)
Definition record_provider (r : ResultRecord) : string :=
  or_default (opt_bind (provider r) id_key) "unknown".

(** An entry of [response.tokenUsage], 0 when absent. *)
Definition record_usage (entry : TokenUsage -> option Z) (r : ResultRecord)
  : Z :=
  or_default (opt_bind (opt_bind (response r) tokenUsage) entry) 0.

Definition record_total : ResultRecord -> Z := record_usage total.
Definition record_prompt : ResultRecord -> Z := record_usage prompt.
Definition record_completion : ResultRecord -> Z := record_usage completion.

(** [gradingResult.tokensUsed.total], 0 when absent. *)
Definition record_assertion (r : ResultRecord) : Z :=
  or_default
    (opt_bind (opt_bind (gradingResult r) tokensUsed) tokensUsed_total) 0.

(** [response.cost], 0.0 when absent. *)
Definition record_cost (r : ResultRecord) : F :=
  or_default (opt_bind (response r) response_cost) f_zero.

(** [latencyMs], 0 when absent. *)
Definition record_latency (r : ResultRecord) : Z :=
  or_default (latencyMs r) 0.

(** The records attributed to provider [p], in their order. *)
Definition records_of (p : string) (rs : list ResultRecord)
  : list ResultRecord :=
  filter (fun r => String.eqb (record_provider r) p) rs.

(** What one record adds to the accumulator of its provider. *)
Definition contribute (r : ResultRecord) (m : metrics) : metrics :=
  {| total_tokens := total_tokens m + record_total r;
     prompt_tokens := prompt_tokens m + record_prompt r;
     completion_tokens := completion_tokens m + record_completion r;
     assertion_tokens := assertion_tokens m + record_assertion r;
     cost := f_add (cost m) (record_cost r);
     test_count := test_count m + 1;
     total_latency_ms := total_latency_ms m + record_latency r |}.

(** The accumulator of a provider after its records [l], from [m]. *)
Definition accumulate (l : list ResultRecord) (m : metrics) : metrics :=
  fold_left (fun acc r => contribute r acc) l m.

(** The entry of provider [p] after the records [rs]: none when no
    record is attributed to [p]. *)
Definition provider_summary (p : string) (rs : list ResultRecord)
  : option metrics :=
  match records_of p rs with
  | [] => None
  | l => Some (accumulate l default_metrics)
  end.

(** The sum of [total_tokens] over the providers of a mapping. *)
Definition sum_total_tokens (d : dict metrics) : Z :=
  sum_Z (map (fun item => total_tokens (snd item)) d).

(** [M] is the maximum [total_tokens] across the providers of [d]. *)
Definition is_max_total (d : dict metrics) (M : Z) : Prop :=
  (exists p m, In (p, m) d /\ total_tokens m = M) /\
  (forall p m, In (p, m) d -> total_tokens m <= M).

(** Two accumulators agree on every integer field. *)
Definition same_counts (m m' : metrics) : Prop :=
  total_tokens m = total_tokens m' /\
  prompt_tokens m = prompt_tokens m' /\
  completion_tokens m = completion_tokens m' /\
  assertion_tokens m = assertion_tokens m' /\
  test_count m = test_count m' /\
  total_latency_ms m = total_latency_ms m'.

(** Two entries of a mapping agree on presence and integer fields. *)
Definition same_entry_counts (o o' : option metrics) : Prop :=
  match o, o' with
  | Some m, Some m' => same_counts m m'
  | None, None => True
  | _, _ => False
  end.

(** The path the script reads: [argv[1]], or the default. *)
Definition chosen_path (argv : list string) : string :=
  match argv with
  | _ :: path :: _ => path
  | _ => "results.json"
  end.

(** A document holding the records [rs]. *)
Definition document_of (rs : list ResultRecord) : Document :=
  {| results := Some {| inner_results := Some rs |} |}.

(** A record with every field present. *)
Definition full_record (p : string) (t pr c : Z) (usd : F) (ms : Z)
  : ResultRecord :=
  {| provider := Some {| id_key := Some p |};
     response :=
       Some {| tokenUsage :=
                 Some {| total := Some t; prompt := Some pr;
                         completion := Some c |};
               response_cost := Some usd |};
     gradingResult := None;
     latencyMs := Some ms |}.

(** A record with nothing but its provider id. *)
Definition bare_record (p : string) : ResultRecord :=
  {| provider := Some {| id_key := Some p |};
     response := None; gradingResult := None; latencyMs := None |}.

(** The record [{}]. *)
Definition empty_record : ResultRecord :=
  {| provider := None; response := None; gradingResult := None;
     latencyMs := None |}.

(** *** Vocabulary of the ranking and of the report *)

(** A computation ends well or with an OverflowError. *)
Definition at_most_overflow {A : Type} (r : result A) : Prop :=
  match r with
  | Return _ => True
  | Raise e => e = Exception OverflowError
  end.

(** The savings the loop computes for a provider: 0.0 at the maximum,
    [(max_tokens - tokens) / max_tokens * 100] below it. *)
Definition savings_value (max_tokens : Z) (m : metrics) : result F :=
  if total_tokens m =? max_tokens then Return f_zero
  else rbind (py_truediv (max_tokens - total_tokens m) max_tokens)
             (fun q => py_mul_int q 100).

(** The savings, 0.0 standing in where the computation raises. *)
Definition savings_or_zero (max_tokens : Z) (m : metrics) : F :=
  match savings_value max_tokens m with
  | Return s => s
  | Raise _ => f_zero
  end.

(** The loop as successive assignments of the values [value] gives. *)
Definition assign_all (value : metrics -> F) (l : dict metrics)
    (acc : dict F) : dict F :=
  fold_left (fun ps item => PyDict.set (fst item) (value (snd item)) ps)
            l acc.

(** The lines of one provider of the breakdown that come before its
    averages. *)
Definition breakdown_counts (item : string * metrics) : list string :=
  let data := snd item in
  [ nl ++ format_provider_name (fst item) ++ ":";
    "  Prompt Tokens:        " ++
      PyStr.format_int_commas (prompt_tokens data);
    "  Completion Tokens:    " ++
      PyStr.format_int_commas (completion_tokens data);
    "  Assertion Tokens:     " ++
      PyStr.format_int_commas (assertion_tokens data);
    "  Total Tokens:         " ++
      PyStr.format_int_commas (total_tokens data);
    "  Total Cost:          $" ++ f_fixed 6 (cost data);
    "  Number of Tests:      " ++ PyStr.str_int (test_count data) ].

(** The two lines of the averages. *)
Definition breakdown_averages (avg_latency avg_cost_per_test : F)
  : list string :=
  [ "  Avg Latency:          " ++ f_fixed 0 avg_latency ++ " ms";
    "  Avg Cost per Test:    $" ++ f_fixed 6 avg_cost_per_test ].

(** The lines of one provider of the breakdown, its averages left out
    when its test_count is not positive; there are none when an average is
    beyond the floats. *)
Definition breakdown_lines (item : string * metrics)
  : option (list string) :=
  let data := snd item in
  if 0 <? test_count data then
    match f_truediv (total_latency_ms data) (test_count data),
          f_of_int (test_count data) with
    | Some avg_latency, Some n =>
        Some (List.app (breakdown_counts item)
                (breakdown_averages avg_latency (f_div (cost data) n)))
    | _, _ => None
    end
  else Some (breakdown_counts item).

(** The lines of the breakdown of the providers [l], one after the
    other. *)
Fixpoint all_breakdown_lines (l : list (string * metrics))
  : option (list string) :=
  match l with
  | [] => Some []
  | item :: l' =>
      match breakdown_lines item, all_breakdown_lines l' with
      | Some lines, Some lines' => Some (List.app lines lines')
      | _, _ => None
      end
  end.

(** The range in which the report of an accumulator is printed in full:
    no field is negative, and none is beyond [2 ^ 1023], far inside the
    floats. *)
Definition in_range (v : Z) : Prop := 0 <= v <= 2 ^ 1023.

Definition metrics_in_range (m : metrics) : Prop :=
  in_range (total_tokens m) /\ in_range (prompt_tokens m) /\
  in_range (completion_tokens m) /\ in_range (assertion_tokens m) /\
  in_range (test_count m) /\ in_range (total_latency_ms m).

(** The lines above the rows of the table. *)
Definition report_head (max_provider_id : string) (max_total : Z)
  : list string :=
  [ nl ++ rule "=";
    "TOKEN USAGE COMPARISON - PROMPTFOO RESULTS";
    rule "=";
    nl ++ "Most Token-Intensive Provider: " ++
      format_provider_name max_provider_id;
    "  Total Tokens: " ++ PyStr.format_int_commas max_total;
    "";
    table_header;
    rule "-" ].

(** The lines between the table and the breakdown, and the last line. *)
Definition report_middle : list string :=
  [ rule "-"; nl ++ "DETAILED BREAKDOWN:"; rule "-" ].

Definition report_foot : list string := [ nl ++ rule "=" ].

End Program.

Arguments Response F : clear implicits.
Arguments ResultRecord F : clear implicits.
Arguments ResultsObject F : clear implicits.
Arguments Document F : clear implicits.
Arguments loaded F : clear implicits.
Arguments metrics F : clear implicits.

(** The row of a provider with no tokens, as the table shows it when the
    savings mapping is empty. *)
Definition idle_row (max_provider_id : string) (item : string * metrics float)
  : string :=
  PyStr.ljust 50 (format_provider_name (fst item)) ++
  "              0 " ++
  PyStr.rjust 11 (Binary64.fixed 6 (cost (snd item))) ++
  "        0.00% " ++
  PyStr.rjust 7 (PyStr.str_int (test_count (snd item))) ++
  (if String.eqb (fst item) max_provider_id then most_indicator else "").

(* ================================================================= *)
(** ** Sample inputs (binary64) *)

Module Samples.
Import Binary64.

(** Two providers, 100 and 50 tokens. *)
Definition two_providers : list (ResultRecord float) :=
  [ full_record "openai:chat:gpt-4" 100 60 40 0.5%float 500;
    full_record "anthropic:claude" 50 30 20 0.25%float 300 ].

(** One provider used 100 tokens, the other reported no usage. *)
Definition one_idle : list (ResultRecord float) :=
  [ full_record "openai:chat:gpt-4" 100 60 40 0.5%float 500;
    bare_record "anthropic:claude" ].

(** No provider reported any usage. *)
Definition all_idle : list (ResultRecord float) :=
  [ bare_record "openai:chat:gpt-4"; bare_record "anthropic:claude" ].

(** The entry of a provider whose one record reported nothing. *)
Definition idle_entry (p : string) : string * metrics float :=
  (p, {| total_tokens := 0; prompt_tokens := 0; completion_tokens := 0;
         assertion_tokens := 0; cost := 0%float; test_count := 1;
         total_latency_ms := 0 |}).

(** The binary64 values of the JSON numbers 0.1, 0.2 and 0.3. *)
Definition cost_0_1 : float := 0x1.999999999999ap-4%float.
Definition cost_0_2 : float := 0x1.999999999999ap-3%float.
Definition cost_0_3 : float := 0x1.3333333333333p-2%float.

(** Three tests of one provider, and the same records in reverse. *)
Definition three_tests : list (ResultRecord float) :=
  [ full_record "openai:gpt-4" 10 6 4 cost_0_1 100;
    full_record "openai:gpt-4" 20 12 8 cost_0_2 200;
    full_record "openai:gpt-4" 30 18 12 cost_0_3 300 ].

Definition three_tests_reversed : list (ResultRecord float) :=
  rev three_tests.

(** A path that is a directory: [open] raises IsADirectoryError. *)
Definition directory_path (filepath : string) : error + loaded float :=
  inl (OtherError "IsADirectoryError").

(** A file holding [two_providers]; every other path is missing. *)
Definition one_file (filepath : string) : error + loaded float :=
  if String.eqb filepath "results.json"
  then inr (Shaped (document_of two_providers))
  else inl FileNotFoundError.

(** One test whose latency is [10 ^ 400] ms, beyond the floats. *)
Definition huge_latency : list (ResultRecord float) :=
  [ full_record "openai:gpt-4" 10 6 4 0.5%float (10 ^ 400) ].

Definition huge_latency_file (filepath : string) : error + loaded float :=
  inr (Shaped (document_of huge_latency)).

(** A file holding [{"results": null}]: the second [.get] is called on
    [None], and nothing is printed before the AttributeError. *)
Definition null_results_file (filepath : string) : error + loaded float :=
  inr (Misshaped (OtherError "AttributeError") []).

(** An accumulator with [t] tokens and nothing else. *)
Definition tokens_only (t : Z) : metrics float :=
  {| total_tokens := t; prompt_tokens := 0; completion_tokens := 0;
     assertion_tokens := 0; cost := 0%float; test_count := 1;
     total_latency_ms := 0 |}.

(** Two providers one token apart, at [2 ^ 1080] tokens. *)
Definition one_token_apart : dict (metrics float) :=
  [ ("openai:gpt-4", tokens_only (2 ^ 1080));
    ("anthropic:claude", tokens_only (2 ^ 1080 - 1)) ].

(** A negative total next to a positive one. *)
Definition negative_total : dict (metrics float) :=
  [ ("openai:gpt-4", tokens_only 1);
    ("anthropic:claude", tokens_only (- 10 ^ 400)) ].

Definition negative_hundred : dict (metrics float) :=
  [ ("openai:gpt-4", tokens_only 100);
    ("anthropic:claude", tokens_only (- 100)) ].

End Samples.

(* ================================================================= *)
(** ** Vocabulary of the further properties *)

(** The distinct elements of a list, each at its first occurrence. *)
Fixpoint first_occurrences (l : list string) : list string :=
  match l with
  | [] => []
  | k :: l' =>
      k :: filter (fun x => negb (String.eqb x k)) (first_occurrences l')
  end.

Section FurtherVocabulary.
Context {F : Type} `{PyFloat F}.

(** A record whose counts and latency, where present, are not negative. *)
Definition record_nonneg (r : ResultRecord F) : Prop :=
  0 <= record_total r /\ 0 <= record_prompt r /\ 0 <= record_completion r /\
  0 <= record_assertion r /\ 0 <= record_latency r.

(** An accumulator whose integer fields are not negative. *)
Definition metrics_nonneg (m : metrics F) : Prop :=
  0 <= total_tokens m /\ 0 <= prompt_tokens m /\ 0 <= completion_tokens m /\
  0 <= assertion_tokens m /\ 0 <= total_latency_ms m.

(** [x] may stand before [y] in the table: it has no fewer tokens. *)
Definition no_fewer_tokens (x y : string * metrics F) : Prop :=
  total_tokens (snd y) <= total_tokens (snd x).

(** The items of a list whose total_tokens is [t], in their order. *)
Definition with_total (t : Z) (l : list (string * metrics F))
  : list (string * metrics F) :=
  filter (fun x => total_tokens (snd x) =? t) l.

End FurtherVocabulary.

(* ================================================================= *)
(** * Properties *)

(** ** Strings *)

Module PyStrFacts.
Import PyStr.

Lemma startswith_app (a b s : string) :
  startswith (a ++ b) s = true -> startswith a s = true.
Proof.
  revert s; induction a as [|c a IH]; intros s; simpl; [reflexivity|].
  destruct s as [|c' s]; [discriminate|].
  intros E; apply andb_true_iff in E as [E1 E2].
  rewrite E1; simpl; auto.
Qed.

Lemma occurs_app (a b s : string) :
  occurs (a ++ b) s = true -> occurs a s = true.
Proof.
  induction s as [|c s IH]; simpl; intros E.
  - apply orb_true_iff in E as [E|E]; [|discriminate].
    apply startswith_app in E. rewrite E. reflexivity.
  - apply orb_true_iff in E as [E|E].
    + apply startswith_app in E. rewrite E. reflexivity.
    + rewrite (IH E). apply orb_true_r.
Qed.

(** A string in which [old] does not occur is left as it is. *)
Lemma replace_absent (old new s : string) :
  occurs old s = false -> replace old new s = s.
Proof.
  unfold replace.
  induction s as [|c s IH]; intros E; [reflexivity|].
  cbn [occurs] in E. apply orb_false_iff in E as [E1 E2].
  cbn [replace_scan]. rewrite E1, (IH E2). reflexivity.
Qed.

(** *** The end of a string *)

Lemma append_empty (s : string) : s ++ "" = s.
Proof. induction s as [|c s IH]; simpl; congruence. Qed.

Lemma endswith_refl (s : string) : endswith s s = true.
Proof. destruct s; simpl; rewrite ?Ascii.eqb_refl, ?String.eqb_refl; reflexivity. Qed.

Lemma endswith_app (a b suffix : string) :
  endswith suffix b = true -> endswith suffix (a ++ b) = true.
Proof.
  intros E. induction a as [|c a IH]; simpl; [exact E|].
  rewrite IH. apply orb_true_r.
Qed.

Lemma last_char_app (a b : string) (c : ascii) :
  last_char b = Some c -> last_char (a ++ b) = Some c.
Proof.
  intros E. induction a as [|x a IH]; simpl; [exact E|].
  rewrite IH. reflexivity.
Qed.

(** A string that ends with a non-empty suffix ends with its last
    character. *)
Lemma endswith_last_char (suffix s : string) (c : ascii) :
  endswith suffix s = true -> last_char suffix = Some c ->
  last_char s = Some c.
Proof.
  intros E L. induction s as [|x s IH].
  - simpl in E. rewrite orb_false_r in E. apply String.eqb_eq in E.
    subst suffix. discriminate.
  - cbn [endswith] in E. apply orb_true_iff in E as [E|E].
    + apply String.eqb_eq in E. subst suffix. exact L.
    + cbn [last_char]. rewrite (IH E). reflexivity.
Qed.

(** The decimal writing of a number ends with a digit, not with a
    bracket. *)
Lemma last_char_string_of_uint (u : Decimal.uint) :
  u <> Decimal.Nil ->
  exists c, last_char (NilEmpty.string_of_uint u) = Some c /\ c <> ")"%char.
Proof.
  induction u as [|u IH|u IH|u IH|u IH|u IH|u IH|u IH|u IH|u IH|u IH];
    intros NN; [contradiction|..];
    cbn [NilEmpty.string_of_uint last_char];
    (destruct (last_char (NilEmpty.string_of_uint u)) as [c|] eqn:E;
     [assert (U : u <> Decimal.Nil) by (intros ->; discriminate E);
      destruct (IH U) as (c' & [= <-] & N); exists c; split; [reflexivity|exact N]
     |eexists; split; [reflexivity|discriminate]]).
Qed.

Lemma last_char_digits (n : Z) :
  exists c, last_char (digits n) = Some c /\ c <> ")"%char.
Proof.
  unfold digits, NilZero.string_of_uint.
  destruct (N.to_uint (Z.to_N n)) as [|u|u|u|u|u|u|u|u|u|u] eqn:E;
    [exists "0"%char; split; [reflexivity|discriminate]|..];
    apply last_char_string_of_uint; discriminate.
Qed.

Lemma last_char_str_int (z : Z) :
  exists c, last_char (str_int z) = Some c /\ c <> ")"%char.
Proof.
  unfold str_int. destruct (z <? 0).
  - destruct (last_char_digits (- z)) as (c & E & N).
    exists c. split; [|exact N]. apply last_char_app. exact E.
  - apply last_char_digits.
Qed.

End PyStrFacts.

(** An identifier in which none of the literals occurs is its own
    display name. *)
Lemma format_provider_name_without_literal (s : string) :
  PyStr.occurs "anthropic:" s = false ->
  PyStr.occurs "openai:" s = false ->
  format_provider_name s = s.
Proof.
  intros A O. unfold format_provider_name.
  assert (C : PyStr.occurs "openai:chat:" s = false).
  { destruct (PyStr.occurs "openai:chat:" s) eqn:E; [|reflexivity].
    apply (PyStrFacts.occurs_app "openai:" "chat:") in E. congruence. }
  rewrite (PyStrFacts.replace_absent "anthropic:" "" _ A).
  rewrite (PyStrFacts.replace_absent "openai:chat:" "" _ C).
  apply PyStrFacts.replace_absent. exact O.
Qed.

(** ** Dicts *)

Module PyDictFacts.
Import PyDict.
Section Facts.
Context {V : Type}.
Implicit Types (d : dict V) (k : string).

Lemma get_update_default_same default k f d :
  get k (update_default default k f d) = Some (f (or_default (get k d) default)).
Proof.
  induction d as [|[k' v] d IH]; simpl.
  - rewrite String.eqb_refl. reflexivity.
  - destruct (String.eqb k' k) eqn:E; simpl; rewrite E; auto.
Qed.

Lemma get_update_default_other default k k' f d :
  k' <> k -> get k' (update_default default k f d) = get k' d.
Proof.
  intros N. induction d as [|[k0 v] d IH]; simpl.
  - destruct (String.eqb_spec k k'); [congruence|reflexivity].
  - destruct (String.eqb_spec k0 k); simpl.
    + subst. destruct (String.eqb_spec k k'); congruence.
    + rewrite IH. reflexivity.
Qed.

Lemma update_default_compose default k f g d :
  update_default default k g (update_default default k f d)
  = update_default default k (fun v => g (f v)) d.
Proof.
  induction d as [|[k' v] d IH]; simpl.
  - rewrite String.eqb_refl. reflexivity.
  - destruct (String.eqb k' k) eqn:E; simpl; rewrite E; [reflexivity|].
    rewrite IH. reflexivity.
Qed.

Lemma update_default_ext default k f g d :
  (forall v, f v = g v) ->
  update_default default k f d = update_default default k g d.
Proof.
  intros E. induction d as [|[k' v] d IH]; simpl.
  - rewrite E. reflexivity.
  - rewrite E, IH. reflexivity.
Qed.

Lemma get_none_iff k d : get k d = None <-> ~ In k (keys d).
Proof.
  induction d as [|[k' v] d IH]; simpl.
  - tauto.
  - destruct (String.eqb_spec k' k).
    + split; [discriminate|]. intros N. exfalso. auto.
    + rewrite IH. tauto.
Qed.

Lemma get_some_in k v d : get k d = Some v -> In (k, v) d.
Proof.
  induction d as [|[k' v'] d IH]; simpl; [discriminate|].
  destruct (String.eqb_spec k' k).
  - intros [= ->]. subst. auto.
  - auto.
Qed.

Lemma in_get k v d : wf d -> In (k, v) d -> get k d = Some v.
Proof.
  unfold wf. induction d as [|[k' v'] d IH]; simpl; [tauto|].
  intros W. inversion W as [|? ? N W']; subst.
  intros [[= -> ->]|I].
  - rewrite String.eqb_refl. reflexivity.
  - destruct (String.eqb_spec k' k).
    + subst. exfalso. apply N. apply (in_map fst) in I. exact I.
    + auto.
Qed.

Lemma in_keys_update_default default k k' f d :
  In k' (keys (update_default default k f d)) <-> k' = k \/ In k' (keys d).
Proof.
  induction d as [|[k0 v] d IH]; simpl.
  - intuition.
  - destruct (String.eqb_spec k0 k); simpl.
    + subst. intuition.
    + rewrite IH. intuition.
Qed.

Lemma wf_update_default default k f d :
  wf d -> wf (update_default default k f d).
Proof.
  unfold wf. induction d as [|[k0 v] d IH]; simpl; intros W.
  - constructor; [simpl; tauto|constructor].
  - inversion W as [|? ? N W']; subst.
    destruct (String.eqb_spec k0 k); simpl.
    + constructor; assumption.
    + constructor; [|auto].
      intros I. apply in_keys_update_default in I. destruct I; [congruence|auto].
Qed.

Lemma get_set_same k v d : get k (set k v d) = Some v.
Proof.
  induction d as [|[k' v'] d IH]; simpl.
  - rewrite String.eqb_refl. reflexivity.
  - destruct (String.eqb k' k) eqn:E; simpl; rewrite E; auto.
Qed.

Lemma get_set_other k k' v d : k' <> k -> get k' (set k v d) = get k' d.
Proof.
  intros N. induction d as [|[k0 v0] d IH]; simpl.
  - destruct (String.eqb_spec k k'); [congruence|reflexivity].
  - destruct (String.eqb_spec k0 k); simpl.
    + subst. destruct (String.eqb_spec k k'); congruence.
    + rewrite IH. reflexivity.
Qed.

Lemma set_not_empty k v d : set k v d <> [].
Proof.
  destruct d as [|[k' v'] d]; simpl; [discriminate|].
  destruct (String.eqb k' k); discriminate.
Qed.

End Facts.
End PyDictFacts.

(** ** Aggregator *)

Section AggregatorFacts.
Context {F : Type} `{PyFloat F}.
Implicit Types (r : ResultRecord F) (rs : list (ResultRecord F)).
Implicit Types (m : metrics F) (d : dict (metrics F)) (p : string).

(** The seven updates of one iteration amount to one update of the
    provider's entry by the record's contribution. *)
Lemma process_result_contribute d r :
  process_result d r
  = PyDict.update_default default_metrics (record_provider r) (contribute r) d.
Proof.
  unfold process_result, bump.
  rewrite !PyDictFacts.update_default_compose.
  replace (or_default (id_key (or_default (provider r) empty_Provider)) "unknown")
    with (record_provider r)
    by (unfold record_provider; destruct (provider r) as [[[?|]]|]; reflexivity).
  apply PyDictFacts.update_default_ext. intros m.
  unfold contribute, record_total, record_prompt, record_completion,
    record_usage, record_assertion, record_cost, record_latency.
  unfold or_default, opt_bind.
  destruct r as [pv resp gr lat]; cbn.
  destruct resp as [[tu c]|], gr as [[used]|], lat; cbn;
    try destruct tu as [[tot pr co]|]; try destruct used as [[n]|]; cbn;
    repeat match goal with
           | |- context [match ?x with Some _ => _ | None => _ end] =>
               destruct x
           end; reflexivity.
Qed.

Lemma get_process_result_same d r :
  PyDict.get (record_provider r) (process_result d r)
  = Some (contribute r
            (or_default (PyDict.get (record_provider r) d) default_metrics)).
Proof.
  rewrite process_result_contribute.
  apply PyDictFacts.get_update_default_same.
Qed.

Lemma get_process_result_other d r p :
  p <> record_provider r ->
  PyDict.get p (process_result d r) = PyDict.get p d.
Proof.
  intros N. rewrite process_result_contribute.
  apply PyDictFacts.get_update_default_other. exact N.
Qed.

Lemma wf_fold_process_result rs d :
  PyDict.wf d -> PyDict.wf (fold_left process_result rs d).
Proof.
  revert d. induction rs as [|r rs IH]; intros d W; simpl; [exact W|].
  apply IH. rewrite process_result_contribute.
  apply PyDictFacts.wf_update_default. exact W.
Qed.

(** The entry of [p] after the loop, from the entry before it and the
    records attributed to [p]. *)
Lemma get_fold_process_result rs d p :
  PyDict.get p (fold_left process_result rs d)
  = match records_of p rs with
    | [] => PyDict.get p d
    | l => Some (accumulate l (or_default (PyDict.get p d) default_metrics))
    end.
Proof.
  revert d. induction rs as [|r rs IH]; intros d; simpl; [reflexivity|].
  rewrite IH. unfold records_of. simpl.
  destruct (String.eqb_spec (record_provider r) p) as [E|N].
  - subst p. rewrite get_process_result_same. simpl.
    destruct (filter _ rs); reflexivity.
  - rewrite get_process_result_other by congruence. reflexivity.
Qed.

Lemma get_extract_provider_data (doc : Document F) p :
  PyDict.get p (extract_provider_data doc)
  = provider_summary p (result_records doc).
Proof.
  unfold extract_provider_data, provider_summary.
  rewrite get_fold_process_result. reflexivity.
Qed.

Lemma wf_extract_provider_data (doc : Document F) :
  PyDict.wf (extract_provider_data doc).
Proof.
  apply wf_fold_process_result. constructor.
Qed.

(** The fields of an accumulator after the records [l]. *)
Lemma accumulate_fields (l : list (ResultRecord F)) m :
  total_tokens (accumulate l m) = total_tokens m + sum_Z (map record_total l) /\
  prompt_tokens (accumulate l m)
    = prompt_tokens m + sum_Z (map record_prompt l) /\
  completion_tokens (accumulate l m)
    = completion_tokens m + sum_Z (map record_completion l) /\
  assertion_tokens (accumulate l m)
    = assertion_tokens m + sum_Z (map record_assertion l) /\
  test_count (accumulate l m) = test_count m + Z.of_nat (List.length l) /\
  total_latency_ms (accumulate l m)
    = total_latency_ms m + sum_Z (map record_latency l).
Proof.
  unfold accumulate. revert m.
  induction l as [|r l IH]; intros m.
  - simpl. repeat split; lia.
  - cbn [fold_left map sum_Z List.length].
    destruct (IH (contribute r m)) as (E1 & E2 & E3 & E4 & E5 & E6).
    rewrite E1, E2, E3, E4, E5, E6. simpl. repeat split; lia.
Qed.

Lemma sum_Z_app (l l' : list Z) : sum_Z (l ++ l') = sum_Z l + sum_Z l'.
Proof. induction l; simpl; lia. Qed.

Lemma sum_Z_perm (l l' : list Z) : Permutation l l' -> sum_Z l = sum_Z l'.
Proof. induction 1; simpl; lia. Qed.

Lemma records_of_perm p rs rs' :
  Permutation rs rs' -> Permutation (records_of p rs) (records_of p rs').
Proof.
  unfold records_of. induction 1; simpl.
  - constructor.
  - destruct (String.eqb _ p); [constructor|]; assumption.
  - destruct (String.eqb (record_provider x) p), (String.eqb (record_provider y) p);
      try apply Permutation_refl; try (constructor; apply Permutation_refl).
  - eapply Permutation_trans; eassumption.
Qed.

(** One iteration adds the record's total to the sum over the providers. *)
Lemma sum_total_tokens_update d r :
  sum_total_tokens
    (PyDict.update_default default_metrics (record_provider r) (contribute r) d)
  = sum_total_tokens d + record_total r.
Proof.
  unfold sum_total_tokens.
  induction d as [|[k v] d IH]; simpl.
  - lia.
  - destruct (String.eqb k (record_provider r)); simpl; lia.
Qed.

Lemma sum_total_tokens_fold rs d :
  sum_total_tokens (fold_left process_result rs d)
  = sum_total_tokens d + sum_Z (map record_total rs).
Proof.
  revert d. induction rs as [|r rs IH]; intros d; simpl; [lia|].
  rewrite IH, process_result_contribute, sum_total_tokens_update. lia.
Qed.

Lemma provider_summary_none_iff p rs :
  provider_summary p rs = None <-> records_of p rs = [].
Proof.
  unfold provider_summary. destruct (records_of p rs); split; congruence.
Qed.

End AggregatorFacts.
(** ** Floats: the range of what the script computes

    The rounding of the format, [binary_round_aux], is followed on the
    rational it rounds; this bounds the quotient of two ints and its
    product by one hundred. *)

Module Binary64Facts.
Import Binary64.

Lemma fexp_eq (e : Z) : fexp prec emax e = Z.max (e - 53) (-1074).
Proof. reflexivity. Qed.

Lemma digits2_pos_spec (p : positive) :
  2 ^ (Zpos (digits2_pos p) - 1) <= Zpos p < 2 ^ Zpos (digits2_pos p).
Proof.
  induction p as [p IH|p IH|]; cbn [digits2_pos].
  - rewrite Pos2Z.inj_succ. change (Zpos p~1) with (2 * Zpos p + 1).
    replace (Z.succ (Zpos (digits2_pos p)) - 1)
      with (Z.succ (Zpos (digits2_pos p) - 1)) by lia.
    rewrite !Z.pow_succ_r by lia.
    generalize dependent (2 ^ (Zpos (digits2_pos p) - 1)).
    generalize dependent (2 ^ Zpos (digits2_pos p)). intros; lia.
  - rewrite Pos2Z.inj_succ. change (Zpos p~0) with (2 * Zpos p).
    replace (Z.succ (Zpos (digits2_pos p)) - 1)
      with (Z.succ (Zpos (digits2_pos p) - 1)) by lia.
    rewrite !Z.pow_succ_r by lia.
    generalize dependent (2 ^ (Zpos (digits2_pos p) - 1)).
    generalize dependent (2 ^ Zpos (digits2_pos p)). intros; lia.
  - simpl. lia.
Qed.

Lemma Zdigits2_nonneg (m : Z) : 0 <= m -> 0 <= Zdigits2 m.
Proof. destruct m; simpl; lia. Qed.

Lemma Zdigits2_spec (m : Z) :
  0 < m -> 2 ^ (Zdigits2 m - 1) <= m < 2 ^ Zdigits2 m.
Proof.
  destruct m as [|p|p]; try lia. intros _. apply digits2_pos_spec.
Qed.

(** [m < 2 ^ j] bounds the number of digits by [j]. *)
Lemma Zdigits2_le (m j : Z) : 0 <= m -> 0 <= j -> m < 2 ^ j -> Zdigits2 m <= j.
Proof.
  intros M J L. destruct (Z.eq_dec m 0) as [->|N]; [simpl; lia|].
  destruct (Zdigits2_spec m ltac:(lia)) as [A _].
  destruct (Z.le_gt_cases (Zdigits2 m) j) as [|G]; [assumption|].
  exfalso. assert (2 ^ j <= 2 ^ (Zdigits2 m - 1))
    by (apply Z.pow_le_mono_r; lia). lia.
Qed.

Lemma Zdigits2_gt (m j : Z) : 0 <= j -> 2 ^ j <= m -> j < Zdigits2 m.
Proof.
  intros J L. assert (0 < m) by (pose proof (Z.pow_pos_nonneg 2 j); lia).
  destruct (Zdigits2_spec m ltac:(lia)) as [_ B].
  destruct (Z.lt_ge_cases j (Zdigits2 m)) as [|G]; [assumption|].
  exfalso. assert (2 ^ Zdigits2 m <= 2 ^ j)
    by (apply Z.pow_le_mono_r; lia). lia.
Qed.

Lemma shr_1_record_of (N D : Z) :
  0 <= N -> 0 < D -> shr_1 (record_of N D) = record_of N (2 * D).
Proof.
  intros HN HD.
  pose proof (Z.div_mod N D ltac:(lia)) as E.
  pose proof (Z.mod_pos_bound N D HD) as B.
  assert (M0 : 0 <= N / D) by (apply Z.div_pos; lia).
  assert (Q : N / (2 * D) = N / D / 2)
    by (rewrite (Z.mul_comm 2 D), Z.div_div by lia; reflexivity).
  assert (R : N mod (2 * D) = N mod D + D * ((N / D) mod 2))
    by (rewrite (Z.mul_comm 2 D); apply Z.rem_mul_r; lia).
  unfold record_of. rewrite Q, R.
  set (m := N / D) in *. set (r := N mod D) in *. clearbody m r.
  clear Q R E.
  unfold shr_1.
  destruct m as [|[p|p|]|p]; try lia.
  - replace (0 / 2) with 0 by reflexivity.
    replace (0 mod 2) with 0 by reflexivity.
    f_equal.
    + destruct (Z.leb_spec (2 * D) (2 * (r + D * 0))); [lia|reflexivity].
    + destruct (Z.leb_spec D (2 * r)), (Z.eqb_spec r 0), (Z.eqb_spec (2 * r) D),
        (Z.eqb_spec (r + D * 0) 0), (Z.eqb_spec (2 * (r + D * 0)) (2 * D));
        simpl; try reflexivity; lia.
  - assert (E1 : Zpos p~1 / 2 = Zpos p)
      by (symmetry; apply (Z.div_unique _ _ _ 1); change (Zpos p~1) with (2 * Zpos p + 1); lia).
    assert (E2 : Zpos p~1 mod 2 = 1)
      by (symmetry; apply (Z.mod_unique _ _ (Zpos p)); change (Zpos p~1) with (2 * Zpos p + 1); lia).
    rewrite E1, E2. f_equal.
    + destruct (Z.leb_spec (2 * D) (2 * (r + D * 1))); [reflexivity|lia].
    + destruct (Z.leb_spec D (2 * r)), (Z.eqb_spec r 0), (Z.eqb_spec (2 * r) D),
        (Z.eqb_spec (r + D * 1) 0), (Z.eqb_spec (2 * (r + D * 1)) (2 * D));
        simpl; try reflexivity; lia.
  - assert (E1 : Zpos p~0 / 2 = Zpos p)
      by (symmetry; apply (Z.div_unique _ _ _ 0); change (Zpos p~0) with (2 * Zpos p); lia).
    assert (E2 : Zpos p~0 mod 2 = 0)
      by (symmetry; apply (Z.mod_unique _ _ (Zpos p)); change (Zpos p~0) with (2 * Zpos p); lia).
    rewrite E1, E2. f_equal.
    + destruct (Z.leb_spec (2 * D) (2 * (r + D * 0))); [lia|reflexivity].
    + destruct (Z.leb_spec D (2 * r)), (Z.eqb_spec r 0), (Z.eqb_spec (2 * r) D),
        (Z.eqb_spec (r + D * 0) 0), (Z.eqb_spec (2 * (r + D * 0)) (2 * D));
        simpl; try reflexivity; lia.
  - replace (1 / 2) with 0 by reflexivity.
    replace (1 mod 2) with 1 by reflexivity.
    f_equal.
    + destruct (Z.leb_spec (2 * D) (2 * (r + D * 1))); [reflexivity|lia].
    + destruct (Z.leb_spec D (2 * r)), (Z.eqb_spec r 0), (Z.eqb_spec (2 * r) D),
        (Z.eqb_spec (r + D * 1) 0), (Z.eqb_spec (2 * (r + D * 1)) (2 * D));
        simpl; try reflexivity; lia.
Qed.

Lemma iter_pos_shr_1 (p : positive) :
  forall N D, 0 <= N -> 0 < D ->
  iter_pos shr_1 p (record_of N D) = record_of N (2 ^ Zpos p * D).
Proof.
  induction p as [p IH|p IH|]; intros N D HN HD; cbn [iter_pos].
  - rewrite shr_1_record_of, IH, IH by (try apply Z.mul_pos_pos; lia).
    f_equal. change (Zpos p~1) with (2 * Zpos p + 1).
    replace (2 * Zpos p + 1) with (Zpos p + Zpos p + 1) by lia.
    rewrite !Z.pow_add_r by lia. lia.
  - rewrite IH, IH by (try apply Z.mul_pos_pos; lia).
    f_equal. change (Zpos p~0) with (2 * Zpos p).
    replace (2 * Zpos p) with (Zpos p + Zpos p) by lia.
    rewrite !Z.pow_add_r by lia. lia.
  - rewrite shr_1_record_of by lia. reflexivity.
Qed.

Lemma shr_record_of (N D e n : Z) :
  0 <= N -> 0 < D ->
  shr (record_of N D) e n
  = (record_of N (2 ^ Z.max n 0 * D), e + Z.max n 0).
Proof.
  intros HN HD. unfold shr. destruct n as [|p|p].
  - simpl Z.max. rewrite Z.pow_0_r, Z.mul_1_l, Z.add_0_r. reflexivity.
  - rewrite iter_pos_shr_1 by lia.
    replace (Z.max (Zpos p) 0) with (Zpos p) by lia. reflexivity.
  - replace (Z.max (Zneg p) 0) with 0 by lia.
    rewrite Z.pow_0_r, Z.mul_1_l, Z.add_0_r. reflexivity.
Qed.

Lemma rne_bounds (N D : Z) :
  0 <= N -> 0 < D ->
  N / D <= rne N D <= N / D + 1 /\
  (forall c, N <= c * D -> rne N D <= c) /\
  (forall c, c * D <= N -> c <= rne N D).
Proof.
  intros HN HD.
  pose proof (Z.div_mod N D ltac:(lia)) as E.
  pose proof (Z.mod_pos_bound N D HD) as B.
  unfold rne, record_of, loc_of_shr_record, round_nearest_even.
  cbn [shr_m shr_r shr_s].
  set (m := N / D) in *. set (r := N mod D) in *. clearbody m r.
  assert (Up : forall c, N <= c * D -> 0 < r -> m + 1 <= c) by (intros; nia).
  assert (Dn : forall c, c * D <= N -> c <= m) by (intros; nia).
  destruct (Z.leb_spec D (2 * r)); destruct (negb (r =? 0) && negb (2 * r =? D));
    try destruct (Z.even m);
    repeat split; try lia; intros c Hc;
    try (apply Dn in Hc; lia); try (apply Up in Hc; lia); nia.
Qed.

(** [binary_round_aux] written out on the rational [N / D] that the
    mantissa and its location stand for. *)
Lemma binary_round_aux_formula (sx : bool) (mx ex : Z) (lx : location) (N D : Z) :
  0 <= N -> 0 < D -> shr_record_of_loc mx lx = record_of N D ->
  let n := Z.max (fexp prec emax (Zdigits2 mx + ex) - ex) 0 in
  let e' := ex + n in
  let z := rne N (2 ^ n * D) in
  let n2 := Z.max (fexp prec emax (Zdigits2 z + e') - e') 0 in
  binary_round_aux prec emax sx mx ex lx
  = match z / 2 ^ n2 with
    | Z0 => S754_zero sx
    | Zpos m => if e' + n2 <=? 971 then S754_finite sx m (e' + n2)
                else S754_infinity sx
    | Zneg _ => S754_nan
    end.
Proof.
  intros HN HD R n e' z n2.
  unfold binary_round_aux, shr_fexp. rewrite R.
  rewrite shr_record_of by assumption. fold n. fold e'.
  change (round_nearest_even (shr_m (record_of N (2 ^ n * D)))
            (loc_of_shr_record (record_of N (2 ^ n * D)))) with z.
  assert (Hz : 0 <= z).
  { assert (0 < 2 ^ n * D)
      by (apply Z.mul_pos_pos; [apply Z.pow_pos_nonneg; lia|assumption]).
    destruct (rne_bounds N (2 ^ n * D) HN H) as [[A _] _].
    assert (0 <= N / (2 ^ n * D)) by (apply Z.div_pos; lia). unfold z. lia. }
  assert (E : shr_record_of_loc z loc_Exact = record_of z 1).
  { unfold record_of. cbn [shr_record_of_loc].
    rewrite Z.div_1_r, Z.mod_1_r. reflexivity. }
  rewrite E, shr_record_of by lia. fold n2.
  rewrite Z.mul_1_r. cbn [shr_m record_of]. reflexivity.
Qed.

(** An upper bound on the rational carries over to the rounded float,
    when the bound [c * 2 ^ k] is itself within the format. *)
Lemma binary_round_aux_upper (sx : bool) (mx ex : Z) (lx : location) (N D c k : Z) :
  0 <= N -> 0 < D -> shr_record_of_loc mx lx = record_of N D ->
  0 <= c < 2 ^ 53 -> -1074 <= k <= 971 -> ex <= k ->
  N <= c * 2 ^ (k - ex) * D ->
  binary_round_aux prec emax sx mx ex lx = S754_zero sx \/
  exists m e, binary_round_aux prec emax sx mx ex lx = S754_finite sx m e /\
    -1074 <= e <= k /\ Zpos m * 2 ^ (e + 1074) <= c * 2 ^ (k + 1074).
Proof.
  intros HN HD R Hc Hk Hex HB.
  rewrite (binary_round_aux_formula sx mx ex lx N D HN HD R).
  assert (Emx : mx = N / D)
    by (pose proof (f_equal shr_m R) as E; destruct lx as [|[]]; exact E).
  set (d := Zdigits2 mx).
  assert (Hmx : 0 <= mx) by (rewrite Emx; apply Z.div_pos; lia).
  assert (P1 : 0 < 2 ^ (k - ex)) by (apply Z.pow_pos_nonneg; lia).
  assert (Lmx : mx <= c * 2 ^ (k - ex)).
  { rewrite Emx. apply Z.div_le_upper_bound; [lia|]. lia. }
  assert (Hd : d <= 53 + (k - ex)).
  { apply Zdigits2_le; [lia|lia|]. rewrite Z.pow_add_r by lia. nia. }
  rewrite !fexp_eq. fold d.
  set (n := Z.max (Z.max (d + ex - 53) (-1074) - ex) 0).
  set (e' := ex + n).
  assert (He' : -1074 <= e' <= k) by (unfold e', n; lia).
  assert (Hn : 0 <= n) by (unfold n; lia).
  assert (P2 : 0 < 2 ^ n) by (apply Z.pow_pos_nonneg; lia).
  assert (P3 : 0 < 2 ^ (k - e')) by (apply Z.pow_pos_nonneg; lia).
  assert (HD' : 0 < 2 ^ n * D) by (apply Z.mul_pos_pos; assumption).
  set (z := rne N (2 ^ n * D)).
  destruct (rne_bounds N (2 ^ n * D) HN HD') as [[Z1 _] [Z2 _]]. fold z in Z1, Z2.
  assert (Hz0 : 0 <= z) by (assert (0 <= N / (2 ^ n * D)) by (apply Z.div_pos; lia); lia).
  assert (Hz : z <= c * 2 ^ (k - e')).
  { apply Z2. replace (k - ex) with ((k - e') + n) in HB by (unfold e'; lia).
    rewrite Z.pow_add_r in HB by lia. lia. }
  assert (Hdz : Zdigits2 z <= 53 + (k - e')).
  { apply Zdigits2_le; [lia|lia|]. rewrite Z.pow_add_r by lia. nia. }
  set (n2 := Z.max (Z.max (Zdigits2 z + e' - 53) (-1074) - e') 0).
  assert (Hn2 : 0 <= n2) by (unfold n2; lia).
  assert (He'' : -1074 <= e' + n2 <= k) by (unfold n2; lia).
  assert (P4 : 0 < 2 ^ n2) by (apply Z.pow_pos_nonneg; lia).
  assert (Hm : z / 2 ^ n2 * 2 ^ n2 <= z).
  { pose proof (Z.mul_div_le z (2 ^ n2) P4). lia. }
  assert (Hm0 : 0 <= z / 2 ^ n2) by (apply Z.div_pos; lia).
  destruct (z / 2 ^ n2) as [|m|m] eqn:Em; [left; reflexivity| |lia].
  right. exists m, (e' + n2).
  destruct (Z.leb_spec (e' + n2) 971); [|lia].
  split; [reflexivity|]. split; [lia|].
  replace (e' + n2 + 1074) with (n2 + (e' + 1074)) by lia.
  replace (k + 1074) with ((k - e') + (e' + 1074)) by lia.
  rewrite (Z.pow_add_r 2 n2 (e' + 1074)), (Z.pow_add_r 2 (k - e') (e' + 1074)) by lia.
  assert (0 < 2 ^ (e' + 1074)) by (apply Z.pow_pos_nonneg; lia).
  rewrite !Z.mul_assoc. apply Z.mul_le_mono_nonneg_r; lia.
Qed.

Lemma Zdigits2_pow2 (w : Z) : 0 <= w -> Zdigits2 (2 ^ w) = w + 1.
Proof.
  intros W. assert (0 < 2 ^ w) by (apply Z.pow_pos_nonneg; lia).
  assert (w < Zdigits2 (2 ^ w)) by (apply Zdigits2_gt; lia).
  assert (Zdigits2 (2 ^ w) <= w + 1).
  { apply Zdigits2_le; [lia|lia|]. rewrite Z.pow_add_r by lia. lia. }
  lia.
Qed.

(** A mantissa with enough digits for its exponent rounds to a float in
    canonical form. *)
Lemma binary_round_aux_valid (sx : bool) (mx ex : Z) (lx : location) (N D : Z) :
  0 <= N -> 0 < D -> shr_record_of_loc mx lx = record_of N D ->
  ex <= fexp prec emax (Zdigits2 mx + ex) ->
  SpecFloat.valid_binary prec emax (binary_round_aux prec emax sx mx ex lx) = true.
Proof.
  intros HN HD R Pre.
  rewrite (binary_round_aux_formula sx mx ex lx N D HN HD R).
  assert (Emx : mx = N / D)
    by (pose proof (f_equal shr_m R) as E; destruct lx as [|[]]; exact E).
  assert (Hmx : 0 <= mx) by (rewrite Emx; apply Z.div_pos; lia).
  rewrite !fexp_eq in *.
  set (d := Zdigits2 mx) in *.
  assert (Hd0 : 0 <= d) by (apply Zdigits2_nonneg; assumption).
  assert (Ud : mx < 2 ^ d).
  { destruct (Z.eq_dec mx 0) as [E0|E0].
    - unfold d. rewrite E0. simpl. lia.
    - apply Zdigits2_spec. lia. }
  set (n := Z.max (Z.max (d + ex - 53) (-1074) - ex) 0).
  assert (Hn : n = Z.max (d + ex - 53) (-1074) - ex) by (unfold n; lia).
  assert (Hn0 : 0 <= n) by lia.
  set (e' := ex + n).
  assert (He' : e' = Z.max (d + ex - 53) (-1074)) by (unfold e'; lia).
  assert (P2 : 0 < 2 ^ n) by (apply Z.pow_pos_nonneg; lia).
  assert (HD' : 0 < 2 ^ n * D) by (apply Z.mul_pos_pos; assumption).
  set (z := rne N (2 ^ n * D)).
  destruct (rne_bounds N (2 ^ n * D) HN HD') as [[Z1 _] [Z2 _]]. fold z in Z1, Z2.
  assert (Em1 : N / (2 ^ n * D) = mx / 2 ^ n).
  { rewrite Emx, Z.div_div by lia. f_equal. lia. }
  rewrite Em1 in Z1.
  assert (Hz0 : 0 <= z) by (assert (0 <= mx / 2 ^ n) by (apply Z.div_pos; lia); lia).
  set (w := Z.max (d - n) 0).
  assert (NltD : N < (mx + 1) * D).
  { pose proof (Z.div_mod N D ltac:(lia)). pose proof (Z.mod_pos_bound N D HD).
    rewrite Emx. nia. }
  assert (Uz : z <= 2 ^ w).
  { apply Z2. rewrite Z.mul_assoc, <- Z.pow_add_r by lia.
    assert (2 ^ d <= 2 ^ (w + n)) by (apply Z.pow_le_mono_r; unfold w; lia).
    nia. }
  assert (Hw : Z.max (w + e' - 53) (-1074) = e') by (unfold w; lia).
  assert (Lz : 0 < z -> e' <= Z.max (Zdigits2 z + e' - 53) (-1074)).
  { intros Pz. destruct (Z.eq_dec e' (-1074)) as [|NE]; [lia|].
    assert (En : n = d - 53) by lia.
    assert (0 < mx) by (destruct (Z.eq_dec mx 0) as [E0|]; [|lia];
                         unfold d in *; rewrite E0 in *; simpl in *; lia).
    destruct (Zdigits2_spec mx ltac:(lia)) as [Lm _]. fold d in Lm.
    assert (2 ^ 52 <= mx / 2 ^ n).
    { apply Z.div_le_lower_bound; [lia|]. rewrite <- Z.pow_add_r by lia.
      replace (n + 52) with (d - 1) by lia. exact Lm. }
    assert (52 < Zdigits2 z) by (apply Zdigits2_gt; lia). lia. }
  set (dz := Zdigits2 z) in *.
  set (n2 := Z.max (Z.max (dz + e' - 53) (-1074) - e') 0).
  destruct (Z.eq_dec z 0) as [Ez|Nz].
  { rewrite Ez, Z.div_0_l by (pose proof (Z.pow_pos_nonneg 2 n2); lia). reflexivity. }
  specialize (Lz ltac:(lia)).
  assert (Udz : dz <= w + 1).
  { apply Zdigits2_le; [lia|unfold w; lia|]. rewrite Z.pow_add_r by (unfold w; lia). lia. }
  destruct (Z.eq_dec (Z.max (dz + e' - 53) (-1074)) e') as [Eq|Ne].
  - assert (En2 : n2 = 0) by (unfold n2; lia).
    rewrite En2, Z.pow_0_r, Z.div_1_r, Z.add_0_r.
    destruct z as [|m|m]; try lia.
    destruct (Z.leb_spec e' 971) as [L|L]; [|reflexivity].
    cbn [SpecFloat.valid_binary]. unfold bounded, canonical_mantissa.
    rewrite fexp_eq. change (Zpos (digits2_pos m)) with dz.
    apply andb_true_intro. split; [apply Z.eqb_eq; lia|apply Z.leb_le; exact L].
  - assert (Ew : w = 53) by lia.
    assert (Edz : dz = 54) by lia.
    assert (En2 : n2 = 1) by (unfold n2; lia).
    assert (Ez : z = 2 ^ 53).
    { assert (2 ^ 53 <= z); [|rewrite Ew in Uz; lia].
      destruct (Zdigits2_spec z ltac:(lia)) as [Lm _]. fold dz in Lm.
      rewrite Edz in Lm. exact Lm. }
    rewrite En2, Ez.
    change (2 ^ 53 / 2 ^ 1) with (Zpos 4503599627370496).
    cbv iota.
    destruct (Z.leb_spec (e' + 1) 971) as [L|L]; [|reflexivity].
    cbn [SpecFloat.valid_binary]. unfold bounded, canonical_mantissa.
    rewrite fexp_eq.
    change (Zpos (digits2_pos 4503599627370496)) with 53.
    apply andb_true_intro. split; [apply Z.eqb_eq; lia|apply Z.leb_le; exact L].
Qed.

Lemma new_location_record (N D : Z) :
  0 <= N -> 0 < D ->
  shr_record_of_loc (N / D) (new_location D (N mod D)) = record_of N D.
Proof.
  intros HN HD. pose proof (Z.mod_pos_bound N D HD) as B.
  unfold new_location, new_location_even, new_location_odd, record_of.
  set (r := N mod D) in *. clearbody r.
  destruct (Z.even D) eqn:Ev.
  - destruct (Z.eqb_spec r 0) as [E|E].
    + cbn [shr_record_of_loc]. f_equal.
      * destruct (Z.leb_spec D (2 * r)); [lia|reflexivity].
    + destruct (Z.compare_spec (2 * r) D); cbn [shr_record_of_loc]; f_equal;
        try (destruct (Z.leb_spec D (2 * r)); [reflexivity || lia|reflexivity || lia]);
        destruct (Z.eqb_spec (2 * r) D); try reflexivity; lia.
  - assert (Odd : 2 * r <> D).
    { intros E. rewrite <- E, Z.even_mul in Ev. discriminate. }
    destruct (Z.eqb_spec r 0) as [E|E].
    + cbn [shr_record_of_loc]. f_equal.
      * destruct (Z.leb_spec D (2 * r)); [lia|reflexivity].
    + destruct (Z.compare_spec (2 * r + 1) D); cbn [shr_record_of_loc]; f_equal;
        try (destruct (Z.leb_spec D (2 * r)); [reflexivity || lia|reflexivity || lia]);
        destruct (Z.eqb_spec (2 * r) D); try reflexivity; lia.
Qed.

(** The quotient of two positive ints as [SFdiv] prepares it for
    rounding. *)
Lemma SFdiv_core_int (a b : positive) :
  exists e' : Z, -1074 <= e' <= 0 /\
    SFdiv_core_binary prec emax (Zpos a) 0 (Zpos b) 0
    = ((Zpos a * 2 ^ (- e')) / Zpos b, e',
       new_location (Zpos b) ((Zpos a * 2 ^ (- e')) mod Zpos b)) /\
    e' <= fexp prec emax (Zdigits2 ((Zpos a * 2 ^ (- e')) / Zpos b) + e').
Proof.
  set (d1 := Zdigits2 (Zpos a)). set (d2 := Zdigits2 (Zpos b)).
  set (e' := Z.min (fexp prec emax (d1 + 0 - (d2 + 0))) (0 - 0)).
  assert (He' : e' = Z.min (Z.max (d1 - d2 - 53) (-1074)) 0).
  { unfold e'. rewrite fexp_eq. lia. }
  exists e'. split; [lia|]. split.
  - unfold SFdiv_core_binary. fold d1 d2 e'.
    assert (Em : match 0 - 0 - e' with
                 | 0 => Zpos a
                 | Zpos _ => Z.shiftl (Zpos a) (0 - 0 - e')
                 | Zneg _ => 0
                 end = Zpos a * 2 ^ (- e')).
    { replace (0 - 0 - e') with (- e') by lia.
      destruct (- e') as [|s|s] eqn:Es; [simpl; lia| |lia].
      apply Z.shiftl_mul_pow2. lia. }
    rewrite Em. unfold Z.div, Z.modulo.
    destruct (Z.div_eucl (Zpos a * 2 ^ (- e')) (Zpos b)). reflexivity.
  - rewrite fexp_eq.
    destruct (Z.eq_dec e' (-1074)) as [|NE]; [lia|].
    set (q := Zpos a * 2 ^ (- e') / Zpos b).
    destruct (Zdigits2_spec (Zpos a) ltac:(lia)) as [La _]. fold d1 in La.
    destruct (Zdigits2_spec (Zpos b) ltac:(lia)) as [_ Ub]. fold d2 in Ub.
    assert (D1 : 0 < d1) by (unfold d1; simpl; lia).
    assert (D2 : 0 < d2) by (unfold d2; simpl; lia).
    set (J := d1 - 1 - e' - d2).
    assert (HJ : 52 <= J) by (unfold J; lia).
    assert (Lq : 2 ^ J <= q).
    { apply Z.div_le_lower_bound; [lia|].
      assert (2 ^ d2 * 2 ^ J = 2 ^ (d1 - 1) * 2 ^ (- e')).
      { rewrite <- !Z.pow_add_r by lia. f_equal. unfold J. lia. }
      assert (0 < 2 ^ J) by (apply Z.pow_pos_nonneg; lia).
      assert (0 < 2 ^ (- e')) by (apply Z.pow_pos_nonneg; lia).
      nia. }
    assert (J < Zdigits2 q) by (apply Zdigits2_gt; lia).
    unfold J in *. lia.
Qed.

Lemma SFdiv_int (sa sb : bool) (a b : positive) (c k : Z) :
  0 <= c < 2 ^ 53 -> 0 <= k <= 971 -> Zpos a <= c * 2 ^ k * Zpos b ->
  let x := SFdiv prec emax (S754_finite sa a 0) (S754_finite sb b 0) in
  SpecFloat.valid_binary prec emax x = true /\
  (x = S754_zero (xorb sa sb) \/
   exists m e, x = S754_finite (xorb sa sb) m e /\
     -1074 <= e <= k /\ Zpos m * 2 ^ (e + 1074) <= c * 2 ^ (k + 1074)).
Proof.
  intros Hc Hk HB x. unfold x. cbn [SFdiv].
  destruct (SFdiv_core_int a b) as [e' [He' [-> Pre]]].
  assert (P : 0 < 2 ^ (- e')) by (apply Z.pow_pos_nonneg; lia).
  assert (HN : 0 <= Zpos a * 2 ^ (- e')) by lia.
  assert (HD : 0 < Zpos b) by lia.
  pose proof (new_location_record (Zpos a * 2 ^ (- e')) (Zpos b) HN HD) as R.
  split.
  - exact (binary_round_aux_valid _ _ _ _ _ _ HN HD R Pre).
  - apply (binary_round_aux_upper _ _ _ _ _ _ c k HN HD R); try lia.
    replace (k - e') with (k + - e') by lia. rewrite Z.pow_add_r by lia.
    apply (Z.mul_le_mono_nonneg_r _ _ (2 ^ (- e'))) in HB; lia.
Qed.

Lemma record_of_exact (z : Z) : shr_record_of_loc z loc_Exact = record_of z 1.
Proof.
  unfold record_of. cbn [shr_record_of_loc].
  rewrite Z.div_1_r, Z.mod_1_r. reflexivity.
Qed.

(** A non-negative quotient of at most [2 ^ 1023] is within the range of
    the floats: the division returns. *)
Lemma truediv_returns (a b : Z) :
  0 <= a -> 0 < b -> a <= 2 ^ 1023 * b -> exists q, truediv a b = Some q.
Proof.
  intros Ha Hb HB. unfold truediv.
  destruct b as [|b|b]; try lia. destruct a as [|a|a]; try lia.
  - cbn. eexists. reflexivity.
  - cbn [SF_of_Z].
    assert (Hc : 0 <= 2 ^ 52 < 2 ^ 53) by (split; [apply Z.pow_nonneg|apply Z.pow_lt_mono_r]; lia).
    assert (HB' : Zpos a <= 2 ^ 52 * 2 ^ 971 * Zpos b)
      by (rewrite <- Z.pow_add_r by lia; exact HB).
    destruct (SFdiv_int false false a b (2 ^ 52) 971 Hc ltac:(lia) HB')
      as [_ [E|[m [e [E _]]]]].
    + rewrite E. eexists. reflexivity.
    + rewrite E. eexists. reflexivity.
Qed.

(** The float of a quotient between 0 and 1 is itself between 0 and 1. *)
Lemma truediv_unit (a b : Z) :
  0 <= a <= b -> 0 < b ->
  exists q, truediv a b = Some q /\
    (Prim2SF q = S754_zero false \/
     exists m e, Prim2SF q = S754_finite false m e /\
       -1074 <= e <= 0 /\ Zpos m * 2 ^ (e + 1074) <= 2 ^ 1074).
Proof.
  intros Ha Hb. unfold truediv.
  destruct b as [|b|b]; try lia. destruct a as [|a|a]; try lia.
  - cbn. eexists. split; [reflexivity|]. left. reflexivity.
  - cbn [SF_of_Z].
    assert (Hc : 0 <= 1 < 2 ^ 53) by (split; [lia|apply Z.pow_gt_1; lia]).
    assert (HB' : Zpos a <= 1 * 2 ^ 0 * Zpos b) by (rewrite Z.pow_0_r; lia).
    destruct (SFdiv_int false false a b 1 0 Hc ltac:(lia) HB')
      as [V [E|[m [e [E B]]]]].
    + rewrite E. eexists. split; [reflexivity|]. left. reflexivity.
    + rewrite E in *. eexists. split; [reflexivity|]. right. exists m, e.
      split; [apply Prim2SF_SF2Prim; exact V|].
      cbn [xorb] in *. change (0 + 1074) with 1074 in B. lia.
Qed.

Lemma Prim2SF_100 : Prim2SF 100%float = S754_finite false 7036874417766400 (-46).
Proof. vm_compute. reflexivity. Qed.

Lemma Prim2SF_0 : Prim2SF 0%float = S754_zero false.
Proof. vm_compute. reflexivity. Qed.

(** One hundred times a float between 0 and 1 lies between 0.0 and
    100.0. *)
Lemma mul_100_range (q : float) :
  (Prim2SF q = S754_zero false \/
   exists m e, Prim2SF q = S754_finite false m e /\
     -1074 <= e <= 0 /\ Zpos m * 2 ^ (e + 1074) <= 2 ^ 1074) ->
  (0 <=? q * 100)%float = true /\ (q * 100 <=? 100)%float = true.
Proof.
  intros Hq. rewrite !leb_spec, mul_spec, Prim2SF_100, Prim2SF_0.
  pose proof (Prim2SF_valid (q * 100)%float) as V.
  rewrite mul_spec, Prim2SF_100 in V.
  unfold SF64mul in *.
  destruct Hq as [Eq|[m [e [Eq [He Hm]]]]]; rewrite Eq in *; [split; reflexivity|].
  clear Eq. cbn [SFmul xorb] in *.
  set (N := Zpos (m * 7036874417766400)) in *.
  assert (HN : 0 <= N) by (unfold N; lia).
  assert (P1 : 0 < 2 ^ (e + 1074)) by (apply Z.pow_pos_nonneg; lia).
  assert (P2 : 0 < 2 ^ (- e)) by (apply Z.pow_pos_nonneg; lia).
  assert (Le : Zpos m <= 2 ^ (- e)).
  { assert (E : 2 ^ 1074 = 2 ^ (- e) * 2 ^ (e + 1074)).
    { rewrite <- Z.pow_add_r by lia. f_equal. lia. }
    rewrite E in Hm. nia. }
  assert (Hc : 0 <= 25 < 2 ^ 53) by (change (2 ^ 53) with 9007199254740992; lia).
  assert (HB : N <= 25 * 2 ^ (2 - (e + -46)) * 1).
  { replace (2 - (e + -46)) with (48 + - e) by lia.
    rewrite Z.pow_add_r by lia. unfold N. rewrite Pos2Z.inj_mul.
    change (2 ^ 48) with 281474976710656. lia. }
  destruct (binary_round_aux_upper false N (e + -46) loc_Exact N 1 25 2
              HN ltac:(lia) (record_of_exact N) Hc ltac:(lia) ltac:(lia) HB)
    as [E|[m' [e' [E [He' Hm']]]]].
  - rewrite E. split; reflexivity.
  - rewrite E in *. clear E. split; [reflexivity|].
    unfold SFleb, SFcompare.
    cbn [SpecFloat.valid_binary] in V. unfold bounded, canonical_mantissa in V.
    apply andb_true_iff in V. destruct V as [C _].
    apply Z.eqb_eq in C. rewrite fexp_eq in C.
    destruct (Z.compare_spec e' (-46)) as [Eq|Lt|Gt]; [|reflexivity|exfalso].
    + subst e'. change (-46 + 1074) with 1028 in Hm'.
      change (2 + 1074) with (48 + 1028) in Hm'.
      rewrite (Z.pow_add_r 2 48 1028) in Hm' by lia.
      assert (0 < 2 ^ 1028) by (apply Z.pow_pos_nonneg; lia).
      change (2 ^ 48) with 281474976710656 in Hm'.
      assert (Zpos m' <= 7036874417766400) by nia.
      rewrite Pos.compare_cont_spec. cbn [Pos.switch_Eq].
      destruct (Pos.compare_spec m' 7036874417766400); try reflexivity. lia.
    + assert (D : Zpos (digits2_pos m') = 53) by lia.
      destruct (Zdigits2_spec (Zpos m') ltac:(lia)) as [L _].
      cbn [Zdigits2] in L. rewrite D in L. change (2 ^ (53 - 1)) with 4503599627370496 in L.
      assert (2 ^ 1029 <= 2 ^ (e' + 1074)) by (apply Z.pow_le_mono_r; lia).
      change (2 + 1074) with (47 + 1029) in Hm'.
      rewrite (Z.pow_add_r 2 47 1029) in Hm' by lia.
      assert (0 < 2 ^ 1029) by (apply Z.pow_pos_nonneg; lia).
      change (2 ^ 47) with 140737488355328 in Hm'.
      assert (Zpos m' * 2 ^ 1029 <= Zpos m' * 2 ^ (e' + 1074))
        by (apply Z.mul_le_mono_nonneg_l; lia).
      assert (4503599627370496 * 2 ^ 1029 <= Zpos m' * 2 ^ 1029)
        by (apply Z.mul_le_mono_nonneg_r; lia).
      lia.
Qed.

Lemma iter_xO (d p : positive) : Zpos (Pos.iter xO p d) = Zpos p * 2 ^ Zpos d.
Proof.
  induction d as [|d IH] using Pos.peano_ind.
  - simpl. lia.
  - rewrite Pos.iter_succ, Pos2Z.inj_succ, Z.pow_succ_r by lia.
    change (Zpos (Pos.iter xO p d)~0) with (2 * Zpos (Pos.iter xO p d)).
    rewrite IH. lia.
Qed.

(** An int of at most [2 ^ 1023] converts to a float. *)
Lemma of_int_returns (n : Z) :
  0 <= n <= 2 ^ 1023 -> exists y, of_int n = Some y.
Proof.
  intros Hn. unfold of_int.
  destruct n as [|p|p]; try lia.
  - cbn. eexists. reflexivity.
  - cbn [binary_normalize]. unfold binary_round.
    assert (S : exists mz ez,
               shl_align p 0 (fexp prec emax (Zpos (digits2_pos p) + 0)) = (mz, ez)
               /\ ez <= 0 /\ Zpos mz = Zpos p * 2 ^ (- ez)).
    { unfold shl_align.
      destruct (fexp prec emax (Zpos (digits2_pos p) + 0) - 0) as [|d|d] eqn:E.
      - exists p, 0. repeat split; simpl; lia.
      - exists p, 0. repeat split; simpl; lia.
      - eexists. eexists. split; [reflexivity|]. rewrite iter_xO.
        split; [lia|]. f_equal. f_equal. lia. }
    destruct S as [mz [ez [-> [Hez Emz]]]].
    assert (P : 0 < 2 ^ (- ez)) by (apply Z.pow_pos_nonneg; lia).
    assert (Hc : 0 <= 2 ^ 52 < 2 ^ 53) by (split; [apply Z.pow_nonneg|apply Z.pow_lt_mono_r]; lia).
    assert (HB : Zpos mz <= 2 ^ 52 * 2 ^ (971 - ez) * 1).
    { rewrite Emz. replace (971 - ez) with (971 + - ez) by lia.
      rewrite Z.pow_add_r, Z.mul_assoc, <- (Z.pow_add_r 2 52 971) by lia.
      change (52 + 971) with 1023. nia. }
    destruct (binary_round_aux_upper false (Zpos mz) ez loc_Exact (Zpos mz) 1
                (2 ^ 52) 971 ltac:(lia) ltac:(lia) (record_of_exact _)
                Hc ltac:(lia) ltac:(lia) HB)
      as [E|[m' [e' [E _]]]].
    + rewrite E. eexists. reflexivity.
    + rewrite E. eexists. reflexivity.
Qed.

End Binary64Facts.
(** ** Ranker *)

Section RankerFacts.
Context {F : Type} `{PyFloat F}.
Implicit Types (m : metrics F) (d : dict (metrics F)) (p : string).
Implicit Types (item best : string * metrics F).

(** [max] returns one of the items, of greatest key. *)
Lemma max_by_total_tokens_spec best (items : list (string * metrics F)) :
  In (max_by_total_tokens best items) (best :: items) /\
  forall x, In x (best :: items) ->
            total_tokens (snd x)
            <= total_tokens (snd (max_by_total_tokens best items)).
Proof.
  revert best. induction items as [|y items IH]; intros best; simpl.
  - split; [auto|]. intros x [<-|[]]. lia.
  - destruct (Z.ltb_spec (total_tokens (snd best)) (total_tokens (snd y)))
      as [L|L]; destruct (IH y) as [I1 M1]; destruct (IH best) as [I2 M2].
    + split.
      * simpl in I1. tauto.
      * intros x [<-|[<-|I]].
        -- specialize (M1 y (or_introl eq_refl)). lia.
        -- apply M1. left. reflexivity.
        -- apply M1. right. exact I.
    + split.
      * simpl in I2. tauto.
      * intros x [<-|[<-|I]].
        -- apply M2. left. reflexivity.
        -- specialize (M2 best (or_introl eq_refl)). lia.
        -- apply M2. right. exact I.
Qed.

Lemma max_by_total_tokens_is_max (first : string * metrics F) rest :
  is_max_total (first :: rest)
               (total_tokens (snd (max_by_total_tokens first rest))).
Proof.
  destruct (max_by_total_tokens_spec first rest) as [I M].
  split.
  - destruct (max_by_total_tokens first rest) as [p m].
    exists p, m. split; [exact I|reflexivity].
  - intros p m J. apply (M (p, m)). exact J.
Qed.

Lemma is_max_total_unique d M M' :
  is_max_total d M -> is_max_total d M' -> M = M'.
Proof.
  intros [(p & m & I & E) U] [(p' & m' & I' & E') U'].
  specialize (U _ _ I'). specialize (U' _ _ I). lia.
Qed.

(** Ties go to the first item: with no greater key behind it, the first
    item is the one [max] returns. *)
Lemma max_by_total_tokens_first best (items : list (string * metrics F)) :
  (forall x, In x items -> total_tokens (snd x) <= total_tokens (snd best)) ->
  max_by_total_tokens best items = best.
Proof.
  revert best. induction items as [|y items IH]; intros best L; simpl.
  - reflexivity.
  - destruct (Z.ltb_spec (total_tokens (snd best)) (total_tokens (snd y))).
    + specialize (L y (or_introl eq_refl)). lia.
    + apply IH. intros x I. apply L. right. exact I.
Qed.

(** One iteration stores the savings of its provider, or raises what
    computing them raises. *)
Lemma percentage_step_value max_tokens (acc : dict F) k m :
  percentage_step max_tokens (Return acc) (k, m)
  = rbind (savings_value max_tokens m)
          (fun s => Return (PyDict.set k s acc)).
Proof.
  unfold percentage_step, savings_value. cbn [rbind fst snd].
  destruct (total_tokens m =? max_tokens); [reflexivity|].
  destruct (py_truediv (max_tokens - total_tokens m) max_tokens);
    [|reflexivity].
  cbn [rbind]. destruct (py_mul_int a 100); reflexivity.
Qed.

Lemma fold_percentage_step_raise max_tokens (l : dict (metrics F)) e :
  fold_left (percentage_step max_tokens) l (Raise e) = Raise e.
Proof. induction l as [|x l IH]; [reflexivity|exact IH]. Qed.

(** Where every savings value is computed, the loop assigns them all. *)
Lemma fold_percentage_step (value : metrics F -> F) max_tokens l
    (acc : dict F) :
  (forall k m, In (k, m) l -> savings_value max_tokens m = Return (value m)) ->
  fold_left (percentage_step max_tokens) l (Return acc)
  = Return (assign_all value l acc).
Proof.
  revert acc. induction l as [|[k m] l IH]; intros acc V; [reflexivity|].
  cbn [fold_left]. rewrite percentage_step_value.
  rewrite (V k m (or_introl eq_refl)). cbn [rbind].
  rewrite IH by (intros k' m' I; apply (V k' m'); right; exact I).
  reflexivity.
Qed.

(** With a non-zero divisor, computing the savings raises nothing but an
    OverflowError. *)
Lemma savings_value_outcome max_tokens m :
  max_tokens <> 0 -> at_most_overflow (savings_value max_tokens m).
Proof.
  intros NZ. unfold savings_value, py_truediv, py_mul_int, py_float.
  destruct (total_tokens m =? max_tokens); [exact I|].
  destruct (Z.eqb_spec max_tokens 0) as [|_]; [contradiction|].
  destruct (f_truediv (max_tokens - total_tokens m) max_tokens);
    [|reflexivity].
  cbn [rbind]. destruct (f_of_int 100); [exact I|reflexivity].
Qed.

Lemma fold_percentage_step_outcome max_tokens (l : dict (metrics F))
    (acc : dict F) :
  max_tokens <> 0 ->
  at_most_overflow (fold_left (percentage_step max_tokens) l (Return acc)).
Proof.
  intros NZ. revert acc. induction l as [|[k m] l IH]; intros acc; [exact I|].
  cbn [fold_left]. rewrite percentage_step_value.
  pose proof (savings_value_outcome max_tokens m NZ) as O.
  destruct (savings_value max_tokens m) as [s|e]; cbn [rbind].
  - apply IH.
  - rewrite fold_percentage_step_raise. exact O.
Qed.

(** The Ranker raises nothing but an OverflowError. *)
Lemma calculate_percentages_outcome d :
  at_most_overflow (calculate_percentages d).
Proof.
  destruct d as [|first rest]; [exact I|].
  unfold calculate_percentages. cbv zeta.
  destruct (Z.eqb_spec (total_tokens (snd (max_by_total_tokens first rest))) 0)
    as [E|N]; [exact I|].
  apply fold_percentage_step_outcome. exact N.
Qed.

Lemma assign_all_not_empty (value : metrics F -> F) l (acc : dict F) :
  l <> [] \/ acc <> [] -> assign_all value l acc <> [].
Proof.
  unfold assign_all. revert acc.
  induction l as [|x l IH]; intros acc [N|N]; simpl; try congruence.
  - apply IH. right. apply PyDictFacts.set_not_empty.
  - apply IH. right. apply PyDictFacts.set_not_empty.
Qed.

Lemma get_assign_all (value : metrics F -> F) l (acc : dict F) p :
  PyDict.wf l ->
  PyDict.get p (assign_all value l acc)
  = match PyDict.get p l with
    | Some m => Some (value m)
    | None => PyDict.get p acc
    end.
Proof.
  unfold assign_all, PyDict.wf. revert acc.
  induction l as [|[k m] l IH]; intros acc W; [reflexivity|].
  inversion W as [|? ? N W']; subst.
  cbn [fold_left fst snd PyDict.get]. rewrite (IH _ W').
  destruct (String.eqb_spec k p) as [->|NE].
  - apply PyDictFacts.get_none_iff in N. rewrite N.
    apply PyDictFacts.get_set_same.
  - rewrite PyDictFacts.get_set_other by congruence. reflexivity.
Qed.

(** What [calculate_percentages] returns when every savings value is
    computed. *)
Lemma calculate_percentages_returns d :
  (forall first rest k m,
      d = first :: rest -> In (k, m) d ->
      exists s,
        savings_value (total_tokens (snd (max_by_total_tokens first rest))) m
        = Return s) ->
  calculate_percentages d
  = Return
      match d with
      | [] => []
      | first :: rest =>
          let M := total_tokens (snd (max_by_total_tokens first rest)) in
          if M =? 0 then [] else assign_all (savings_or_zero M) d []
      end.
Proof.
  destruct d as [|first rest]; intros V; [reflexivity|].
  unfold calculate_percentages. cbv zeta.
  destruct (Z.eqb_spec (total_tokens (snd (max_by_total_tokens first rest))) 0)
    as [E|N]; [reflexivity|].
  apply fold_percentage_step. intros k m J.
  destruct (V first rest k m eq_refl J) as [s E].
  unfold savings_or_zero. rewrite E. reflexivity.
Qed.

(** An empty mapping or a maximum of 0: the Ranker returns the empty
    mapping. *)
Lemma calculate_percentages_nothing d :
  d = [] \/ is_max_total d 0 -> calculate_percentages d = Return [].
Proof.
  intros [->|Z0]; [reflexivity|].
  destruct d as [|first rest]; [reflexivity|].
  unfold calculate_percentages. cbv zeta.
  pose proof (max_by_total_tokens_is_max first rest) as Mx.
  rewrite (is_max_total_unique _ _ _ Mx Z0). reflexivity.
Qed.

(** What the loop returns, when it returns, is not empty. *)
Lemma fold_percentage_step_not_empty max_tokens (l : dict (metrics F))
    (acc percentages : dict F) :
  fold_left (percentage_step max_tokens) l (Return acc) = Return percentages ->
  l <> [] \/ acc <> [] -> percentages <> [].
Proof.
  revert acc. induction l as [|[k m] l IH]; intros acc E N.
  - injection E as <-. destruct N; congruence.
  - cbn [fold_left] in E. rewrite percentage_step_value in E.
    destruct (savings_value max_tokens m) as [s|e]; cbn [rbind] in E.
    + apply (IH _ E). right. apply PyDictFacts.set_not_empty.
    + rewrite fold_percentage_step_raise in E. discriminate.
Qed.

(** The Ranker returns the empty mapping exactly for an empty mapping or
    a maximum of 0. *)
Lemma calculate_percentages_empty_iff d :
  calculate_percentages d = Return [] <-> d = [] \/ is_max_total d 0.
Proof.
  split; [|apply calculate_percentages_nothing].
  destruct d as [|first rest]; [left; reflexivity|].
  unfold calculate_percentages. cbv zeta.
  pose proof (max_by_total_tokens_is_max first rest) as Mx.
  destruct (Z.eqb_spec (total_tokens (snd (max_by_total_tokens first rest))) 0)
    as [E|N].
  - intros _. right. rewrite E in Mx. exact Mx.
  - intros E. exfalso.
    apply (fold_percentage_step_not_empty _ _ _ _ E); [left; discriminate|].
    reflexivity.
Qed.

End RankerFacts.

(** *** The savings in binary64 *)

(** For a provider with no more tokens than a positive maximum the savings
    are computed, and they lie between 0.0 and 100.0. *)
Lemma savings_value_returns (max_tokens : Z) (m : metrics float) :
  0 < max_tokens -> 0 <= total_tokens m <= max_tokens ->
  exists s,
    savings_value max_tokens m = Return s /\
    (total_tokens m = max_tokens -> s = 0%float) /\
    (total_tokens m <> max_tokens ->
     exists q,
       Binary64.truediv (max_tokens - total_tokens m) max_tokens = Some q /\
       s = (q * 100)%float /\
       (0 <=? q * 100)%float = true /\ (q * 100 <=? 100)%float = true).
Proof.
  intros P B. unfold savings_value.
  destruct (Z.eqb_spec (total_tokens m) max_tokens) as [E|N].
  - exists 0%float. split; [reflexivity|]. split; [reflexivity|contradiction].
  - destruct (Binary64Facts.truediv_unit (max_tokens - total_tokens m)
                max_tokens ltac:(lia) P) as (q & Eq & Hq).
    exists (q * 100)%float. split.
    + unfold py_truediv. destruct (Z.eqb_spec max_tokens 0) as [|_]; [lia|].
      cbn [f_truediv Binary64.float_PyFloat]. rewrite Eq. reflexivity.
    + split; [contradiction|]. intros _. exists q.
      split; [exact Eq|]. split; [reflexivity|].
      apply Binary64Facts.mul_100_range. exact Hq.
Qed.

(** With no negative total the Ranker returns: nothing for a maximum of
    0, else the savings of every provider. *)
Lemma calculate_percentages_nonneg (d : dict (metrics float)) :
  (forall p m, In (p, m) d -> 0 <= total_tokens m) ->
  calculate_percentages d
  = Return
      match d with
      | [] => []
      | first :: rest =>
          let M := total_tokens (snd (max_by_total_tokens first rest)) in
          if M =? 0 then [] else assign_all (savings_or_zero M) d []
      end.
Proof.
  intros NN. apply calculate_percentages_returns.
  intros first rest k m -> J.
  destruct (max_by_total_tokens_spec first rest) as [_ U].
  specialize (U (k, m) J). cbn [snd] in U.
  specialize (NN k m J).
  set (M := total_tokens (snd (max_by_total_tokens first rest))) in *.
  destruct (Z.eq_dec M 0) as [Z0|NZ].
  - exists 0%float. unfold savings_value.
    destruct (Z.eqb_spec (total_tokens m) M); [reflexivity|lia].
  - destruct (savings_value_returns M m ltac:(lia) ltac:(lia)) as (s & E & _).
    exists s. exact E.
Qed.

(** ** Reporter *)

Section ReporterFacts.
Context {F : Type} `{PyFloat F}.
Implicit Types (m : metrics F) (d : dict (metrics F)) (p : string).
Implicit Types (out : list string).

Lemma bind_return {A B : Type} (c : IO A) (k : A -> IO B) out a out' :
  c out = (Return a, out') -> bind c k out = k a out'.
Proof. intros E. unfold bind. rewrite E. reflexivity. Qed.

Lemma bind_raise {A B : Type} (c : IO A) (k : A -> IO B) out e out' :
  c out = (Raise e, out') -> bind c k out = (Raise e, out').
Proof. intros E. unfold bind. rewrite E. reflexivity. Qed.

Lemma bind_print {B : Type} (s : string) (k : unit -> IO B) out :
  bind (print s) k out = k tt (out ++ [s])%list.
Proof. reflexivity. Qed.

(** A loop whose body prints and returns does so itself. *)
Lemma for_each_prints {A : Type} (body : A -> IO unit)
    (lines : A -> list string) (l : list A) out :
  (forall x o, body x o = (Return tt, o ++ lines x)%list) ->
  for_each l body out = (Return tt, out ++ flat_map lines l)%list.
Proof.
  intros B. revert out. induction l as [|x l IH]; intros out; simpl.
  - unfold ret. rewrite app_nil_r. reflexivity.
  - rewrite (bind_return _ _ _ _ _ (B x out)), IH, app_assoc. reflexivity.
Qed.

Lemma for_each_print {A : Type} (g : A -> string) (l : list A) out :
  for_each l (fun x => print (g x)) out = (Return tt, out ++ map g l)%list.
Proof.
  rewrite (for_each_prints _ (fun x => [g x])) by reflexivity.
  rewrite flat_map_concat_map. f_equal. f_equal.
  induction l; simpl; congruence.
Qed.

(** A loop whose body adds to the output, and raises nothing but an
    OverflowError, does so itself. *)
Lemma for_each_outcome {A : Type} (body : A -> IO unit) (l : list A) out :
  (forall x o, exists r lines,
      body x o = (r, o ++ lines)%list /\ at_most_overflow r) ->
  exists r lines,
    for_each l body out = (r, out ++ lines)%list /\ at_most_overflow r.
Proof.
  intros B. revert out. induction l as [|x l IH]; intros out; simpl.
  - exists (Return tt), []. rewrite app_nil_r. split; [reflexivity|exact I].
  - destruct (B x out) as (r & lines & E & O). destruct r as [[]|e].
    + rewrite (bind_return _ _ _ _ _ E).
      destruct (IH (out ++ lines)%list) as (r' & lines' & E' & O').
      exists r', (lines ++ lines')%list. rewrite E', app_assoc.
      split; [reflexivity|exact O'].
    + rewrite (bind_raise _ _ _ _ _ E).
      exists (Raise e), lines. split; [reflexivity|exact O].
Qed.

(** The breakdown of a provider whose averages are floats. *)
Lemma breakdown_item_prints (item : string * metrics F) out lines :
  breakdown_lines item = Some lines ->
  breakdown_item item out = (Return tt, out ++ lines)%list.
Proof.
  unfold breakdown_item, breakdown_lines, breakdown_counts,
    breakdown_averages. cbv zeta.
  rewrite !bind_print.
  destruct (Z.ltb_spec 0 (test_count (snd item))) as [L|L].
  - unfold py_truediv, py_div_int, py_float, lift.
    destruct (Z.eqb_spec (test_count (snd item)) 0) as [E|_]; [lia|].
    destruct (f_truediv (total_latency_ms (snd item)) (test_count (snd item)))
      as [a|]; [|discriminate].
    destruct (f_of_int (test_count (snd item))) as [n|]; [|discriminate].
    intros [= <-]. unfold bind, print. cbn. rewrite <- !app_assoc. reflexivity.
  - intros [= <-]. unfold ret. rewrite <- !app_assoc. reflexivity.
Qed.

(** The guard [test_count > 0] keeps both divisions from a zero divisor:
    the breakdown of a provider raises nothing but an OverflowError. *)
Lemma breakdown_item_outcome (item : string * metrics F) out :
  exists r lines,
    breakdown_item item out = (r, out ++ lines)%list /\ at_most_overflow r.
Proof.
  unfold breakdown_item. cbv zeta. rewrite !bind_print.
  destruct (Z.ltb_spec 0 (test_count (snd item))) as [L|L].
  - unfold py_truediv, py_div_int, py_float, lift.
    destruct (Z.eqb_spec (test_count (snd item)) 0) as [E|_]; [lia|].
    destruct (f_truediv (total_latency_ms (snd item)) (test_count (snd item)))
      as [a|].
    + destruct (f_of_int (test_count (snd item))) as [n|].
      * eexists. eexists. unfold bind, print. cbn. rewrite <- !app_assoc.
        split; [reflexivity|exact I].
      * eexists. eexists. unfold bind, print. cbn. rewrite <- !app_assoc.
        split; [reflexivity|reflexivity].
    + eexists. eexists. unfold bind. cbn. rewrite <- !app_assoc.
      split; [reflexivity|reflexivity].
  - eexists. eexists. unfold ret. rewrite <- !app_assoc.
    split; [reflexivity|exact I].
Qed.

Lemma for_each_breakdown_item (l : list (string * metrics F)) out lines :
  all_breakdown_lines l = Some lines ->
  for_each l breakdown_item out = (Return tt, out ++ lines)%list.
Proof.
  revert out lines. induction l as [|x l IH]; intros out lines; simpl.
  - intros [= <-]. unfold ret. rewrite app_nil_r. reflexivity.
  - destruct (breakdown_lines x) as [a|] eqn:Ea; [|discriminate].
    destruct (all_breakdown_lines l) as [b|]; [|discriminate].
    intros [= <-].
    rewrite (bind_return _ _ _ _ _ (breakdown_item_prints x out a Ea)).
    rewrite (IH _ b eq_refl), app_assoc. reflexivity.
Qed.

(** The head and the table are printed whatever the numbers; the
    breakdown raises nothing but an OverflowError. *)
Lemma print_comparison_table_outcome (first : string * metrics F) rest
    (percentages : dict F) out :
  let d := first :: rest in
  let max_provider_id := fst (max_by_total_tokens first rest) in
  exists max_data r rest_lines,
    PyDict.get max_provider_id d = Some max_data /\
    print_comparison_table d percentages out
    = (r,
       out ++ report_head max_provider_id (total_tokens max_data) ++
       map (table_row max_provider_id percentages) (sorted_desc d) ++
       report_middle ++ rest_lines)%list /\
    at_most_overflow r.
Proof.
  intros d max_provider_id.
  destruct (PyDict.get max_provider_id d) as [max_data|] eqn:G.
  - exists max_data.
    unfold d in *. unfold print_comparison_table. cbv zeta.
    fold max_provider_id.
    rewrite !bind_print.
    unfold getitem. rewrite G.
    unfold lift at 1. unfold bind at 1.
    rewrite !bind_print.
    rewrite (bind_return _ _ _ _ _ (for_each_print _ _ _)).
    rewrite !bind_print.
    match goal with
    | |- context [bind (for_each ?l breakdown_item) _ ?o] =>
        destruct (for_each_outcome breakdown_item l o
                    (fun x o' => breakdown_item_outcome x o'))
          as (r & lines & E & O)
    end.
    destruct r as [[]|e].
    + rewrite (bind_return _ _ _ _ _ E).
      exists (Return tt), (lines ++ report_foot)%list.
      split; [reflexivity|]. split; [|exact I].
      unfold print, report_head, report_middle, report_foot.
      rewrite <- !app_assoc. reflexivity.
    + rewrite (bind_raise _ _ _ _ _ E).
      exists (Raise e), lines.
      split; [reflexivity|]. split; [|exact O].
      unfold report_head, report_middle.
      rewrite <- !app_assoc. reflexivity.
  - exfalso. apply PyDictFacts.get_none_iff in G. apply G.
    destruct (max_by_total_tokens_spec first rest) as [J _].
    apply (in_map fst) in J. exact J.
Qed.

(** The whole report, for a non-empty mapping whose averages are floats:
    it is printed to the end. *)
Lemma print_comparison_table_prints (first : string * metrics F) rest
    (percentages : dict F) out breakdown :
  let d := first :: rest in
  let max_provider_id := fst (max_by_total_tokens first rest) in
  all_breakdown_lines (sorted_desc d) = Some breakdown ->
  exists max_data,
    PyDict.get max_provider_id d = Some max_data /\
    print_comparison_table d percentages out
    = (Return tt,
       out ++ report_head max_provider_id (total_tokens max_data) ++
       map (table_row max_provider_id percentages) (sorted_desc d) ++
       report_middle ++ breakdown ++ report_foot)%list.
Proof.
  intros d max_provider_id B.
  destruct (PyDict.get max_provider_id d) as [max_data|] eqn:G.
  - exists max_data. split; [reflexivity|].
    unfold d in *. unfold print_comparison_table. cbv zeta.
    fold max_provider_id.
    rewrite !bind_print.
    unfold getitem. rewrite G.
    unfold lift at 1. unfold bind at 1.
    rewrite !bind_print.
    rewrite (bind_return _ _ _ _ _ (for_each_print _ _ _)).
    rewrite !bind_print.
    rewrite (bind_return _ _ _ _ _ (for_each_breakdown_item _ _ _ B)).
    unfold print, report_head, report_middle, report_foot.
    rewrite <- !app_assoc. reflexivity.
  - exfalso. apply PyDictFacts.get_none_iff in G. apply G.
    destruct (max_by_total_tokens_spec first rest) as [J _].
    apply (in_map fst) in J. exact J.
Qed.

(** Items of equal key stay as they are. *)
Lemma sorted_desc_ties (l : list (string * metrics F)) (t : Z) :
  (forall x, In x l -> total_tokens (snd x) = t) -> sorted_desc l = l.
Proof.
  induction l as [|x l IH]; intros E; simpl; [reflexivity|].
  rewrite IH by (intros y I; apply E; right; exact I).
  destruct l as [|y l]; [reflexivity|]. simpl.
  rewrite (E x (or_introl eq_refl)), (E y (or_intror (or_introl eq_refl))).
  rewrite Z.ltb_irrefl. reflexivity.
Qed.

Lemma insert_desc_perm (x : string * metrics F) l :
  Permutation (insert_desc x l) (x :: l).
Proof.
  induction l as [|y l IH]; simpl; [apply Permutation_refl|].
  destruct (total_tokens (snd x) <? total_tokens (snd y)).
  - eapply Permutation_trans; [apply perm_skip, IH|apply perm_swap].
  - apply Permutation_refl.
Qed.

Lemma sorted_desc_perm (l : list (string * metrics F)) :
  Permutation (sorted_desc l) l.
Proof.
  induction l as [|x l IH]; simpl; [constructor|].
  eapply Permutation_trans; [apply insert_desc_perm|].
  apply perm_skip, IH.
Qed.

(** A loop that returns has run its body, to the end, on every item. *)
Lemma for_each_returns {A : Type} (body : A -> IO unit) (l : list A)
    out out' :
  for_each l body out = (Return tt, out') ->
  forall x, In x l -> exists o o', body x o = (Return tt, o').
Proof.
  revert out. induction l as [|y l IH]; intros out E x I; [destruct I|].
  cbn [for_each] in E. unfold bind in E.
  destruct (body y out) as [[[]|e] o1] eqn:B; [|discriminate].
  destruct I as [<-|I].
  - exists out, o1. exact B.
  - apply (IH _ E x I).
Qed.

(** The breakdown of a provider returns only when its averages are
    floats. *)
Lemma breakdown_item_returns (item : string * metrics F) out out' :
  breakdown_item item out = (Return tt, out') ->
  breakdown_lines item <> None.
Proof.
  unfold breakdown_item, breakdown_lines. cbv zeta.
  rewrite !bind_print.
  destruct (0 <? test_count (snd item)); [|discriminate].
  unfold py_truediv, py_div_int, py_float, lift.
  destruct (test_count (snd item) =? 0); [unfold bind; discriminate|].
  destruct (f_truediv (total_latency_ms (snd item)) (test_count (snd item)))
    as [a|]; [|unfold bind; discriminate].
  destruct (f_of_int (test_count (snd item))) as [n|];
    [discriminate|unfold bind, print; cbn; discriminate].
Qed.

(** The Reporter returns only when the averages of every provider are
    floats. *)
Lemma print_comparison_table_returns (first : string * metrics F) rest
    (percentages : dict F) out out' :
  print_comparison_table (first :: rest) percentages out = (Return tt, out') ->
  forall item, In item (first :: rest) -> breakdown_lines item <> None.
Proof.
  intros E item I.
  unfold print_comparison_table in E. cbv zeta in E.
  rewrite !bind_print in E.
  unfold getitem in E.
  destruct (PyDict.get (fst (max_by_total_tokens first rest)) (first :: rest))
    as [max_data|]; [|discriminate].
  unfold lift at 1 in E. unfold bind at 1 in E.
  rewrite !bind_print in E.
  rewrite (bind_return _ _ _ _ _ (for_each_print _ _ _)) in E.
  rewrite !bind_print in E.
  unfold bind at 1 in E.
  match type of E with
  | context [for_each ?l breakdown_item ?o] =>
      destruct (for_each l breakdown_item o) as [[[]|e] o1] eqn:B;
        [|discriminate]
  end.
  assert (J : In item (sorted_desc (first :: rest))).
  { eapply Permutation_in; [apply Permutation_sym, sorted_desc_perm|exact I]. }
  destruct (for_each_returns _ _ _ _ B item J) as (o & o' & R).
  apply (breakdown_item_returns _ _ _ R).
Qed.

End ReporterFacts.

(** *** The breakdown in binary64 *)

(** Within the range, both averages of a provider are floats. *)
Lemma breakdown_lines_in_range (item : string * metrics float) :
  metrics_in_range (snd item) -> exists lines, breakdown_lines item = Some lines.
Proof.
  intros (_ & _ & _ & _ & [C0 C1] & [L0 L1]). unfold breakdown_lines. cbv zeta.
  destruct (Z.ltb_spec 0 (test_count (snd item))) as [P|P];
    [|eexists; reflexivity].
  assert (Q : 0 < 2 ^ 1023) by (apply Z.pow_pos_nonneg; lia).
  destruct (Binary64Facts.truediv_returns (total_latency_ms (snd item))
              (test_count (snd item)) L0 P ltac:(nia)) as [a Ea].
  destruct (Binary64Facts.of_int_returns (test_count (snd item))
              (conj C0 C1)) as [n En].
  cbn [f_truediv f_of_int Binary64.float_PyFloat]. rewrite Ea, En.
  eexists. reflexivity.
Qed.

Lemma all_breakdown_lines_in_range (l : list (string * metrics float)) :
  Forall (fun item => metrics_in_range (snd item)) l ->
  exists lines, all_breakdown_lines l = Some lines.
Proof.
  induction 1 as [|x l R _ IH]; [exists []; reflexivity|].
  destruct (breakdown_lines_in_range x R) as [a Ea].
  destruct IH as [b Eb]. cbn [all_breakdown_lines]. rewrite Ea, Eb.
  eexists. reflexivity.
Qed.

(** ** Entry point *)

Section MainFacts.
Context {F : Type} `{PyFloat F}.

(** An entry of the aggregated mapping counts the records of its
    provider, of which there is one at least. *)
Lemma test_count_positive (doc : Document F) p (m : metrics F) :
  In (p, m) (extract_provider_data doc) -> 0 < test_count m.
Proof.
  intros I.
  apply PyDictFacts.in_get in I; [|apply wf_extract_provider_data].
  rewrite get_extract_provider_data in I. unfold provider_summary in I.
  destruct (records_of p (result_records doc)) as [|r l]; [discriminate|].
  assert (Em : m = accumulate (r :: l) default_metrics)
    by (injection I as <-; reflexivity).
  destruct (accumulate_fields (r :: l) default_metrics)
    as (_ & _ & _ & _ & E & _).
  rewrite Em, E. cbn [test_count default_metrics List.length]. lia.
Qed.

Lemma main_path (argv : list string) :
  (if (1 <? List.length argv)%nat then nth 1 argv "" else "results.json")
  = chosen_path argv.
Proof. destruct argv as [|a [|b l]]; reflexivity. Qed.

(** After a document with a record is loaded, the script ranks and
    prints. *)
Lemma main_shaped (json_load_file : string -> error + loaded F)
    (argv : list string) (doc : Document F) first rest :
  json_load_file (chosen_path argv) = inr (Shaped doc) ->
  extract_provider_data doc = first :: rest ->
  main json_load_file argv []
  = bind (lift (calculate_percentages (first :: rest)))
         (fun percentages =>
            print_comparison_table (first :: rest) percentages)
         ["Loading results from: " ++ chosen_path argv].
Proof.
  intros E E0. unfold main. cbv zeta. rewrite main_path, bind_print.
  unfold load_results. rewrite E. unfold ret, bind at 1. rewrite E0.
  reflexivity.
Qed.

(** It then ends well or with an OverflowError, the loading line first
    in what was printed. *)
Lemma main_outcome (json_load_file : string -> error + loaded F)
    (argv : list string) (doc : Document F) :
  json_load_file (chosen_path argv) = inr (Shaped doc) ->
  extract_provider_data doc <> [] ->
  exists r printed,
    main json_load_file argv []
    = (r, ("Loading results from: " ++ chosen_path argv) :: printed) /\
    at_most_overflow r.
Proof.
  intros E N.
  destruct (extract_provider_data doc) as [|first rest] eqn:E0;
    [contradiction|].
  rewrite (main_shaped _ _ _ _ _ E E0).
  pose proof (calculate_percentages_outcome (first :: rest)) as O.
  destruct (calculate_percentages (first :: rest)) as [ps|e].
  - unfold lift, bind at 1.
    destruct (print_comparison_table_outcome first rest ps
                ["Loading results from: " ++ chosen_path argv])
      as (max_data & r & lines & _ & R & O').
    rewrite R. eexists. eexists. split; [reflexivity|exact O'].
  - exists (Raise e), []. split; [reflexivity|exact O].
Qed.

(** It does not return when an average of some provider is beyond the
    floats. *)
Lemma main_raises (json_load_file : string -> error + loaded F)
    (argv : list string) (doc : Document F) item :
  json_load_file (chosen_path argv) = inr (Shaped doc) ->
  In item (extract_provider_data doc) ->
  breakdown_lines item = None ->
  fst (main json_load_file argv []) = Raise (Exception OverflowError).
Proof.
  intros E I B.
  destruct (main_outcome json_load_file argv doc E) as (r & printed & M & O).
  { intros E0. rewrite E0 in I. destruct I. }
  rewrite M. cbn [fst]. destruct r as [[]|e]; [exfalso|exact (f_equal _ O)].
  destruct (extract_provider_data doc) as [|first rest] eqn:E0; [destruct I|].
  rewrite (main_shaped _ _ _ _ _ E E0) in M.
  destruct (calculate_percentages (first :: rest)) as [ps|e];
    [|discriminate].
  unfold lift, bind at 1 in M.
  apply (print_comparison_table_returns _ _ _ _ _ M item I). exact B.
Qed.

End MainFacts.

(** When the aggregated numbers are within the range, the report is
    printed in full and the script returns. *)
Lemma main_in_range (json_load_file : string -> error + loaded float)
    (argv : list string) (doc : Document float) :
  json_load_file (chosen_path argv) = inr (Shaped doc) ->
  extract_provider_data doc <> [] ->
  Forall (fun item => metrics_in_range (snd item))
         (extract_provider_data doc) ->
  exists percentages report,
    calculate_percentages (extract_provider_data doc) = Return percentages /\
    print_comparison_table (extract_provider_data doc) percentages []
    = (Return tt, report) /\
    main json_load_file argv []
    = (Return tt, ("Loading results from: " ++ chosen_path argv) :: report).
Proof.
  intros E N R.
  destruct (extract_provider_data doc) as [|first rest] eqn:E0;
    [contradiction|].
  rewrite (main_shaped _ _ _ _ _ E E0).
  assert (NN : forall p m, In (p, m) (first :: rest) -> 0 <= total_tokens m).
  { intros p m J. rewrite Forall_forall in R.
    destruct (R (p, m) J) as ([L _] & _). exact L. }
  pose proof (calculate_percentages_nonneg _ NN) as C.
  assert (R' : Forall (fun item => metrics_in_range (snd item))
                 (sorted_desc (first :: rest))).
  { eapply Permutation_Forall;
      [apply Permutation_sym, sorted_desc_perm|exact R]. }
  destruct (all_breakdown_lines_in_range _ R') as [breakdown B].
  rewrite C. cbv iota zeta.
  set (ps := if total_tokens (snd (max_by_total_tokens first rest)) =? 0
             then []
             else assign_all
                    (savings_or_zero
                       (total_tokens (snd (max_by_total_tokens first rest))))
                    (first :: rest) []).
  destruct (print_comparison_table_prints first rest ps [] breakdown B)
    as (x & G & X).
  destruct (print_comparison_table_prints first rest ps
              ["Loading results from: " ++ chosen_path argv] breakdown B)
    as (x' & G' & X').
  rewrite G in G'. injection G' as <-.
  exists ps. eexists. split; [reflexivity|].
  unfold lift, bind at 1. rewrite X, X'. split; reflexivity.
Qed.

(* ================================================================= *)
(** ** The samples, run *)

(** Division of ints rounds the quotient once, to the nearest binary64. *)
Example truediv_one_third :
  Binary64.truediv 1 3 = Some 0x1.5555555555555p-2%float /\
  Binary64.truediv (2 ^ 60 + 1) 3 = Some 0x1.5555555555555p+58%float.
Proof. split; reflexivity. Qed.

(** A quotient that rounds to [2 ^ 1024] raises OverflowError; the
    greatest int below that bound gives the greatest float, and a quotient
    below the smallest float gives 0.0. *)
Example truediv_at_the_bounds :
  Binary64.truediv (2 ^ 1024 - 2 ^ 970) 1 = None /\
  Binary64.truediv (2 ^ 1024 - 2 ^ 970 - 1) 1
  = Some 0x1.fffffffffffffp+1023%float /\
  Binary64.truediv (10 ^ 400) 1 = None /\
  Binary64.truediv 1 (2 ^ 1080) = Some 0%float /\
  Binary64.truediv 0 (-5) = Some (-0)%float.
Proof. repeat split; vm_compute; reflexivity. Qed.

Example of_int_at_the_bounds :
  Binary64.of_int 100 = Some 100%float /\
  Binary64.of_int (2 ^ 53 + 1) = Some 0x1p+53%float /\
  Binary64.of_int (2 ^ 1024 - 2 ^ 970 - 1)
  = Some 0x1.fffffffffffffp+1023%float /\
  Binary64.of_int (2 ^ 1024 - 2 ^ 970) = None.
Proof. repeat split; vm_compute; reflexivity. Qed.

(** A float times or divided by an int that is beyond the floats raises
    OverflowError, also where the divisor test would come next. *)
Example mixed_operations :
  @py_mul_int float _ 0.5%float 100 = Return 50%float /\
  @py_mul_int float _ 0.5%float (10 ^ 400) = Raise (Exception OverflowError) /\
  @py_div_int float _ 0.5%float 4 = Return 0.125%float /\
  @py_div_int float _ 0.5%float (10 ^ 400) = Raise (Exception OverflowError) /\
  @py_div_int float _ 0.5%float 0 = Raise (Exception ZeroDivisionError).
Proof. repeat split; vm_compute; reflexivity. Qed.

(** Formatting rounds the exact binary value, ties to even. *)
Example fixed_rounds_half_even :
  Binary64.fixed 2 0.125%float = "0.12" /\
  Binary64.fixed 2 0.375%float = "0.38" /\
  Binary64.fixed 0 2.5%float = "2" /\
  Binary64.fixed 6 Samples.cost_0_1 = "0.100000".
Proof. repeat split; reflexivity. Qed.

Example commas_group_by_three :
  PyStr.format_int_commas 1234567 = "1,234,567" /\
  PyStr.format_int_commas (-1000) = "-1,000" /\
  PyStr.format_int_commas 999 = "999".
Proof. repeat split; reflexivity. Qed.

(** Padding counts characters: the two bytes of U+00E9 count once, the
    three bytes of the star of the marker once. *)
Example padding_counts_characters :
  PyStr.ljust 5 "ab" = "ab   " /\
  PyStr.ljust 5 (String "195"%char (String "169"%char "")) 
  = String "195"%char (String "169"%char "    ") /\
  PyStr.len most_indicator = 9%nat /\
  PyStr.rjust 3 "abcd" = "abcd".
Proof. repeat split; reflexivity. Qed.

Example all_idle_aggregated :
  extract_provider_data (document_of Samples.all_idle)
  = [Samples.idle_entry "openai:chat:gpt-4";
     Samples.idle_entry "anthropic:claude"].
Proof. reflexivity. Qed.

Example empty_record_counts_for_unknown :
  @process_result float _ [] empty_record
  = [("unknown",
      {| total_tokens := 0; prompt_tokens := 0; completion_tokens := 0;
         assertion_tokens := 0; cost := 0%float; test_count := 1;
         total_latency_ms := 0 |})].
Proof. reflexivity. Qed.

Example two_providers_ranked :
  calculate_percentages
    (extract_provider_data (document_of Samples.two_providers))
  = Return [("openai:chat:gpt-4", 0%float); ("anthropic:claude", 50%float)].
Proof. reflexivity. Qed.

(** A negative total can take the quotient beyond the floats. *)
Example negative_total_overflows :
  calculate_percentages Samples.negative_total
  = Raise (Exception OverflowError).
Proof. vm_compute. reflexivity. Qed.

Example two_providers_top_row :
  table_row "openai:chat:gpt-4"
    [("openai:chat:gpt-4", 0%float); ("anthropic:claude", 50%float)]
    ("openai:chat:gpt-4",
     {| total_tokens := 100; prompt_tokens := 60; completion_tokens := 40;
        assertion_tokens := 0; cost := 0.5%float; test_count := 1;
        total_latency_ms := 500 |})
  = "gpt-4                                                         100" ++
    "    0.500000        0.00%       1" ++ most_indicator.
Proof. reflexivity. Qed.

Example default_file_is_read :
  fst (run Samples.one_file ["analyze_tokens.py"]) = 0 /\
  run Samples.one_file ["analyze_tokens.py"; "missing.json"]
  = (1, ["Loading results from: missing.json";
         "Error: File 'missing.json' not found."]).
Proof. split; reflexivity. Qed.

(** A latency beyond the floats: the table is printed, the breakdown
    stops at the average, and the process ends with status 1. *)
Example huge_latency_stops_the_breakdown :
  exists printed,
    run Samples.huge_latency_file ["analyze_tokens.py"] = (1, printed) /\
    List.length printed = 20%nat /\
    nth_error printed 19 = Some "  Number of Tests:      1".
Proof. eexists. split; [vm_compute; reflexivity|]. split; reflexivity. Qed.

(* ================================================================= *)
(** * The claims *)

Section AggregatorClaims.
Context {F : Type} `{PyFloat F}.
Implicit Types (r : ResultRecord F) (rs : list (ResultRecord F)).
Implicit Types (m : metrics F) (d : dict (metrics F)) (p : string).
Implicit Types (doc : Document F).

(** C1.  For every record sequence, in the mapping the Aggregator returns
    for the document that holds it, the providers are those some record
    is attributed to; each provider's total_tokens is the sum of the
    tokenUsage totals (0 when absent) of exactly its records; hence the
    totals of the providers sum to the totals of the records. *)
Theorem C1_total_tokens_sum_of_record_totals rs :
  (forall p, In p (PyDict.keys (extract_provider_data (document_of rs)))
             <-> records_of p rs <> []) /\
  (forall p m,
      PyDict.get p (extract_provider_data (document_of rs)) = Some m ->
      total_tokens m = sum_Z (map record_total (records_of p rs))) /\
  sum_total_tokens (extract_provider_data (document_of rs))
  = sum_Z (map record_total rs).
Proof.
  split; [|split].
  - intros p. rewrite <- provider_summary_none_iff.
    change rs with (result_records (document_of rs)) at 2.
    rewrite <- get_extract_provider_data.
    pose proof (PyDictFacts.get_none_iff p
                  (extract_provider_data (document_of rs))) as G.
    destruct (in_dec string_dec p
                (PyDict.keys (extract_provider_data (document_of rs))));
      tauto.
  - intros p m G. rewrite get_extract_provider_data in G.
    change (result_records (document_of rs)) with rs in G.
    unfold provider_summary in G.
    destruct (records_of p rs) as [|r l] eqn:E; [discriminate|].
    assert (Em : m = accumulate (r :: l) default_metrics)
      by (injection G as <-; reflexivity).
    destruct (accumulate_fields (r :: l) default_metrics) as (E1 & _).
    rewrite Em, E1. reflexivity.
  - unfold extract_provider_data.
    change (result_records (document_of rs)) with rs.
    rewrite sum_total_tokens_fold. reflexivity.
Qed.

(** C8.  Whatever fields of a record are absent, the loop body processes
    the record: the entry of its provider (of "unknown" when the id is
    absent) exists afterwards, each quantity that is present has been
    added to it, each absent one has counted as 0 (as 0.0 for the cost),
    and test_count has grown by one; no other entry has changed. *)
Theorem C8_absent_fields_take_defaults d r :
  exists m',
    PyDict.get (record_provider r) (process_result d r) = Some m' /\
    (opt_bind (provider r) id_key = None -> record_provider r = "unknown") /\
    (forall q, q <> record_provider r ->
               PyDict.get q (process_result d r) = PyDict.get q d) /\
    let m := or_default (PyDict.get (record_provider r) d) default_metrics in
    let usage := opt_bind (response r) tokenUsage in
    total_tokens m'
      = total_tokens m + or_default (opt_bind usage total) 0 /\
    prompt_tokens m'
      = prompt_tokens m + or_default (opt_bind usage prompt) 0 /\
    completion_tokens m'
      = completion_tokens m + or_default (opt_bind usage completion) 0 /\
    assertion_tokens m'
      = assertion_tokens m
        + or_default
            (opt_bind (opt_bind (gradingResult r) tokensUsed)
                      tokensUsed_total) 0 /\
    cost m'
      = f_add (cost m)
              (or_default (opt_bind (response r) response_cost) f_zero) /\
    total_latency_ms m' = total_latency_ms m + or_default (latencyMs r) 0 /\
    test_count m' = test_count m + 1.
Proof.
  eexists. split; [apply get_process_result_same|].
  split; [intros E; unfold record_provider; rewrite E; reflexivity|].
  split; [intros q N; apply get_process_result_other; exact N|].
  cbv zeta. repeat split.
Qed.


(** C10, amended.  For a permutation of the records the Aggregator yields
    the same providers with the same total_tokens, prompt_tokens,
    completion_tokens, assertion_tokens, test_count and total_latency_ms;
    the entry of a provider, cost included, is the same when the records
    of that provider come in the same order. *)
Theorem C10_integer_fields_order_insensitive doc doc' :
  Permutation (result_records doc) (result_records doc') ->
  forall p,
    same_entry_counts (PyDict.get p (extract_provider_data doc))
                      (PyDict.get p (extract_provider_data doc')) /\
    (records_of p (result_records doc) = records_of p (result_records doc') ->
     PyDict.get p (extract_provider_data doc)
     = PyDict.get p (extract_provider_data doc')).
Proof.
  intros P p. rewrite !get_extract_provider_data. split.
  - apply (records_of_perm p) in P. unfold provider_summary.
    destruct (records_of p (result_records doc)) as [|r l] eqn:E,
             (records_of p (result_records doc')) as [|r' l'] eqn:E'.
    + exact I.
    + apply Permutation_nil in P. discriminate.
    + apply Permutation_sym, Permutation_nil in P. discriminate.
    + cbn [same_entry_counts]. unfold same_counts.
      destruct (accumulate_fields (r :: l) default_metrics)
        as (E1 & E2 & E3 & E4 & E5 & E6).
      destruct (accumulate_fields (r' :: l') default_metrics)
        as (E1' & E2' & E3' & E4' & E5' & E6').
      rewrite E1, E2, E3, E4, E5, E6, E1', E2', E3', E4', E5', E6'.
      rewrite (Permutation_length P).
      repeat split; f_equal;
        apply sum_Z_perm, Permutation_map; exact P.
  - intros E. unfold provider_summary. rewrite E. reflexivity.
Qed.

End AggregatorClaims.

(** The records of [three_tests], in two orders, give one entry with the
    same integer fields. *)
Lemma C10_witness :
  same_entry_counts
    (PyDict.get "openai:gpt-4"
       (extract_provider_data (document_of Samples.three_tests)))
    (PyDict.get "openai:gpt-4"
       (extract_provider_data (document_of Samples.three_tests_reversed))).
Proof.
  apply (C10_integer_fields_order_insensitive
           (document_of Samples.three_tests)
           (document_of Samples.three_tests_reversed)).
  simpl. apply Permutation_rev.
Defined.

(** C10 as stated fails: costs 0.1, 0.2, 0.3 summed in this order give
    0.6000000000000001, in the reverse order 0.6. *)
Lemma C10_cost_depends_on_order :
  Permutation Samples.three_tests Samples.three_tests_reversed /\
  exists m m',
    PyDict.get "openai:gpt-4"
      (extract_provider_data (document_of Samples.three_tests)) = Some m /\
    PyDict.get "openai:gpt-4"
      (extract_provider_data (document_of Samples.three_tests_reversed))
    = Some m' /\
    PrimFloat.eqb (cost m) (cost m') = false /\
    m <> m'.
Proof.
  split; [apply Permutation_rev|].
  eexists. eexists. split; [vm_compute; reflexivity|].
  split; [vm_compute; reflexivity|].
  split; [vm_compute; reflexivity|].
  intros E. apply (f_equal (fun x => Prim2SF (cost x))) in E.
  vm_compute in E. discriminate E.
Qed.

(** C3.  The Ranker returns an empty mapping if and only if the input
    mapping is empty or the maximum total_tokens across its providers is
    0; and it does return, so that the mapping it returns is otherwise not
    empty, for every mapping without a negative total_tokens. *)
Theorem C3_percentages_empty_iff (d : dict (metrics float)) :
  (calculate_percentages d = Return [] <-> d = [] \/ is_max_total d 0) /\
  ((forall p m, In (p, m) d -> 0 <= total_tokens m) ->
   exists percentages,
     calculate_percentages d = Return percentages /\
     (percentages = [] <-> d = [] \/ is_max_total d 0)).
Proof.
  split; [apply calculate_percentages_empty_iff|].
  intros NN.
  pose proof (calculate_percentages_nonneg d NN) as E.
  pose proof (calculate_percentages_empty_iff d) as Iff.
  rewrite E in Iff.
  eexists. split; [exact E|].
  split.
  - intros X. apply Iff. rewrite X. reflexivity.
  - intros X. apply Iff in X. injection X as X. exact X.
Qed.

(** C2, amended.  For a mapping with distinct keys and no negative total
    whose maximum total_tokens [M] is not 0, the Ranker returns, giving
    0.0 to every provider at the maximum and to every other provider the
    float (M - tokens) / M * 100, which lies between 0.0 and 100.0, both
    included. *)
Theorem C2_savings_zero_at_max_else_in_range
    (d : dict (metrics float)) (M : Z) :
  PyDict.wf d ->
  is_max_total d M ->
  M <> 0 ->
  (forall p m, In (p, m) d -> 0 <= total_tokens m) ->
  exists percentages,
    calculate_percentages d = Return percentages /\
    forall p m,
      PyDict.get p d = Some m ->
      (total_tokens m = M -> PyDict.get p percentages = Some 0%float) /\
      (total_tokens m <> M ->
       exists q,
         Binary64.truediv (M - total_tokens m) M = Some q /\
         PyDict.get p percentages = Some (q * 100)%float /\
         (0 <=? q * 100)%float = true /\
         (q * 100 <=? 100)%float = true).
Proof.
  intros W Mx NZ NN.
  eexists. split; [apply (calculate_percentages_nonneg d NN)|].
  destruct d as [|first rest].
  { destruct Mx as [(p & m & [] & _) _]. }
  pose proof (max_by_total_tokens_is_max first rest) as Mx'.
  rewrite (is_max_total_unique _ _ _ Mx' Mx). cbv zeta.
  destruct (Z.eqb_spec M 0) as [|_]; [contradiction|].
  intros p m G. rewrite (get_assign_all _ _ [] p W), G.
  pose proof (PyDictFacts.get_some_in _ _ _ G) as J.
  pose proof (NN _ _ J) as G0. destruct Mx as [_ U].
  pose proof (U _ _ J) as G1.
  destruct (savings_value_returns M m ltac:(lia) ltac:(lia))
    as (s & E & AtMax & Below).
  unfold savings_or_zero. rewrite E.
  split.
  - intros T. rewrite (AtMax T). reflexivity.
  - intros T. destruct (Below T) as (q & Eq & -> & R0 & R100).
    exists q. repeat split; assumption.
Qed.

(** In [two_providers] the provider at the maximum gets 0.0 and the other
    one, with half the tokens, a value between 0.0 and 100.0. *)
Lemma C2_witness :
  exists percentages,
    calculate_percentages
      (extract_provider_data (document_of Samples.two_providers))
    = Return percentages /\
    forall p m,
      PyDict.get p (extract_provider_data (document_of Samples.two_providers))
      = Some m ->
      (total_tokens m = 100 -> PyDict.get p percentages = Some 0%float) /\
      (total_tokens m <> 100 ->
       exists q,
         Binary64.truediv (100 - total_tokens m) 100 = Some q /\
         PyDict.get p percentages = Some (q * 100)%float /\
         (0 <=? q * 100)%float = true /\
         (q * 100 <=? 100)%float = true).
Proof.
  apply (C2_savings_zero_at_max_else_in_range
           (extract_provider_data (document_of Samples.two_providers)) 100).
  - vm_compute. repeat constructor; simpl; intuition discriminate.
  - split.
    + eexists. eexists. split; [left; reflexivity|reflexivity].
    + intros p m I. vm_compute in I.
      destruct I as [E|[E|[]]]; injection E as <- <-; simpl; lia.
  - lia.
  - intros p m I. vm_compute in I.
    destruct I as [E|[E|[]]]; injection E as <- <-; simpl; lia.
Defined.

(** C2 as stated fails at both ends of the range, and beyond it for a
    negative total.  A provider that used no token at all, next to one
    that used 100, gets savings 100.0, which is not below 100; a provider
    one token below a maximum of [2 ^ 1080] gets savings 0.0, which is not
    above 0; a provider at -100 tokens, next to one at 100, gets savings
    200.0. *)
Lemma C2_idle_provider_saves_100 :
  (exists m,
     PyDict.get "anthropic:claude"
       (extract_provider_data (document_of Samples.one_idle)) = Some m /\
     is_max_total (extract_provider_data (document_of Samples.one_idle)) 100 /\
     total_tokens m <> 100 /\
     exists percentages,
       calculate_percentages
         (extract_provider_data (document_of Samples.one_idle))
       = Return percentages /\
       exists savings,
         PyDict.get "anthropic:claude" percentages = Some savings /\
         savings = 100%float /\
         PrimFloat.ltb savings 100 = false) /\
  (is_max_total Samples.one_token_apart (2 ^ 1080) /\
   PyDict.get "anthropic:claude" Samples.one_token_apart
   = Some (Samples.tokens_only (2 ^ 1080 - 1)) /\
   2 ^ 1080 - 1 <> 2 ^ 1080 /\
   exists percentages,
     calculate_percentages Samples.one_token_apart = Return percentages /\
     exists savings,
       PyDict.get "anthropic:claude" percentages = Some savings /\
       savings = 0%float /\
       PrimFloat.ltb 0 savings = false) /\
  (is_max_total Samples.negative_hundred 100 /\
   exists percentages,
     calculate_percentages Samples.negative_hundred = Return percentages /\
     exists savings,
       PyDict.get "anthropic:claude" percentages = Some savings /\
       savings = 200%float /\
       PrimFloat.leb savings 100 = false).
Proof.
  split; [|split].
  - eexists. split; [vm_compute; reflexivity|].
    split.
    { split.
      - eexists. eexists. split; [left; reflexivity|reflexivity].
      - intros p m I. vm_compute in I.
        destruct I as [E|[E|[]]]; injection E as <- <-; simpl; lia. }
    split; [simpl; lia|].
    eexists. split; [vm_compute; reflexivity|].
    eexists. split; [reflexivity|]. split; reflexivity.
  - split.
    { split.
      - eexists. eexists. split; [left; reflexivity|reflexivity].
      - intros p m I. unfold Samples.one_token_apart in I.
        destruct I as [E|[E|[]]]; injection E as <- <-; simpl; lia. }
    split; [reflexivity|]. split; [lia|].
    eexists. split; [vm_compute; reflexivity|].
    eexists. split; [reflexivity|]. split; reflexivity.
  - split.
    { split.
      - eexists. eexists. split; [left; reflexivity|reflexivity].
      - intros p m I. unfold Samples.negative_hundred in I.
        destruct I as [E|[E|[]]]; injection E as <- <-; simpl; lia. }
    eexists. split; [vm_compute; reflexivity|].
    eexists. split; [reflexivity|]. split; reflexivity.
Qed.

(** C5.  When every provider of a non-empty mapping has total_tokens 0,
    the Ranker returns an empty savings mapping, and with it the Reporter
    prints the whole report (the numbers being within the range in which
    the averages are floats): the head, naming the first provider, one
    row per provider in the order of the mapping, each showing 0.00%
    savings, and the breakdown. *)
Theorem C5_all_idle_rows_show_zero_savings
    (first : string * metrics float) (rest : dict (metrics float)) :
  (forall p m, In (p, m) (first :: rest) -> total_tokens m = 0) ->
  Forall (fun item => metrics_in_range (snd item)) (first :: rest) ->
  calculate_percentages (first :: rest) = Return [] /\
  exists breakdown,
    all_breakdown_lines (first :: rest) = Some breakdown /\
    print_comparison_table (first :: rest) [] []
    = (Return tt,
       (report_head (fst first) 0 ++
        map (idle_row (fst first)) (first :: rest) ++
        report_middle ++ breakdown ++ report_foot)%list).
Proof.
  intros Z0 R.
  assert (Zi : forall x, In x (first :: rest) -> total_tokens (snd x) = 0).
  { intros [p m] I. apply (Z0 p m I). }
  assert (Mx : max_by_total_tokens first rest = first).
  { apply max_by_total_tokens_first. intros x I.
    rewrite (Zi x (or_intror I)), (Zi first (or_introl eq_refl)). lia. }
  split.
  - apply calculate_percentages_nothing. right.
    pose proof (max_by_total_tokens_is_max first rest) as M.
    rewrite Mx, (Zi first (or_introl eq_refl)) in M. exact M.
  - destruct (all_breakdown_lines_in_range _ R) as [breakdown B].
    exists breakdown. split; [exact B|].
    rewrite <- (sorted_desc_ties _ 0 Zi) in B.
    destruct (print_comparison_table_prints first rest [] [] breakdown B)
      as (max_data & G & E).
    rewrite E, Mx. clear E. rewrite Mx in G.
    destruct first as [p0 m0]. cbn [fst PyDict.get] in G |- *.
    rewrite String.eqb_refl in G. injection G as <-.
    rewrite (Z0 p0 m0 (or_introl eq_refl)).
    rewrite (sorted_desc_ties _ 0 Zi).
    cbn [app]. f_equal. f_equal. f_equal.
    apply map_ext_in. intros x I. unfold table_row, idle_row.
    rewrite (Zi x I). reflexivity.
Qed.

(** Two providers without usage: each row shows 0.00%. *)
Lemma C5_witness :
  calculate_percentages
    [Samples.idle_entry "openai:chat:gpt-4";
     Samples.idle_entry "anthropic:claude"] = Return [] /\
  exists breakdown,
    all_breakdown_lines
      [Samples.idle_entry "openai:chat:gpt-4";
       Samples.idle_entry "anthropic:claude"] = Some breakdown /\
    print_comparison_table
      [Samples.idle_entry "openai:chat:gpt-4";
       Samples.idle_entry "anthropic:claude"] [] []
    = (Return tt,
       (report_head "openai:chat:gpt-4" 0 ++
        map (idle_row "openai:chat:gpt-4")
          [Samples.idle_entry "openai:chat:gpt-4";
           Samples.idle_entry "anthropic:claude"] ++
        report_middle ++ breakdown ++ report_foot)%list).
Proof.
  apply (C5_all_idle_rows_show_zero_savings
           (Samples.idle_entry "openai:chat:gpt-4")
           [Samples.idle_entry "anthropic:claude"]).
  - intros p m I. simpl in I.
    destruct I as [E|[E|[]]]; injection E as <- <-; reflexivity.
  - assert (P : 0 < 2 ^ 1023) by (apply Z.pow_pos_nonneg; lia).
    repeat (apply Forall_cons || apply Forall_nil);
      unfold metrics_in_range, in_range; simpl; lia.
Defined.

(** C4, amended.  The process ends with status 1 when the file is missing
    (after a message with the path), when its content is not valid JSON
    (after a message with the parse error), when the aggregation yields no
    provider, and also when an exception goes uncaught: one raised while
    loading, one raised on a loaded value that is not of the expected
    shape, or the OverflowError of an average latency beyond the floats.
    It ends with status 0, after the report, for every document of the
    expected shape with at least one record whose aggregated counts and
    latencies are within the range. *)
Theorem C4_exit_status (json_load_file : string -> error + loaded float)
    (argv : list string) :
  let path := chosen_path argv in
  let loading := "Loading results from: " ++ path in
  (json_load_file path = inl FileNotFoundError ->
   run json_load_file argv
   = (1, [loading; "Error: File '" ++ path ++ "' not found."])) /\
  (forall detail,
      json_load_file path = inl (JSONDecodeError detail) ->
      run json_load_file argv
      = (1, [loading; "Error: Invalid JSON in '" ++ path ++ "': " ++ detail]))
  /\
  (forall doc,
      json_load_file path = inr (Shaped doc) ->
      extract_provider_data doc = [] ->
      run json_load_file argv
      = (1, [loading;
             "No provider data found in results. " ++
             "Make sure the results file contains test results."])) /\
  (forall e,
      json_load_file path = inl e ->
      e <> FileNotFoundError ->
      (forall detail, e <> JSONDecodeError detail) ->
      run json_load_file argv = (1, [loading])) /\
  (forall e printed,
      json_load_file path = inr (Misshaped e printed) ->
      run json_load_file argv = (1, loading :: printed)) /\
  (forall doc p m,
      json_load_file path = inr (Shaped doc) ->
      In (p, m) (extract_provider_data doc) ->
      Binary64.truediv (total_latency_ms m) (test_count m) = None ->
      fst (run json_load_file argv) = 1) /\
  (forall doc,
      json_load_file path = inr (Shaped doc) ->
      extract_provider_data doc <> [] ->
      Forall (fun item => metrics_in_range (snd item))
             (extract_provider_data doc) ->
      exists report, run json_load_file argv = (0, loading :: report)).
Proof.
  intros path loading.
  assert (P : (if (1 <? List.length argv)%nat then nth 1 argv ""
               else "results.json") = path).
  { unfold path. destruct argv as [|a [|b l]]; reflexivity. }
  assert (Load : main json_load_file argv []
                 = bind (load_results json_load_file path)
                     (fun results_data =>
                        match results_data with
                        | Misshaped e printed =>
                            bind (for_each printed print)
                                 (fun _ => raise (Exception e))
                        | Shaped results_data =>
                            match extract_provider_data results_data with
                            | [] =>
                                bind (print
                                        ("No provider data found in results. " ++
                                         "Make sure the results file contains test results."))
                                     (fun _ => raise (SystemExit 1))
                            | _ :: _ =>
                                bind (lift (calculate_percentages
                                              (extract_provider_data results_data)))
                                     (fun percentages =>
                                        print_comparison_table
                                          (extract_provider_data results_data)
                                          percentages)
                            end
                        end)
                     [loading]).
  { unfold main. cbv zeta. rewrite P. reflexivity. }
  repeat split.
  - intros E. unfold run. rewrite Load. unfold load_results. rewrite E.
    reflexivity.
  - intros detail E. unfold run. rewrite Load. unfold load_results. rewrite E.
    reflexivity.
  - intros doc E E0. unfold run. rewrite Load. unfold load_results.
    rewrite E. unfold ret, bind at 1. rewrite E0. reflexivity.
  - intros e E N1 N2. unfold run. rewrite Load. unfold load_results.
    rewrite E.
    destruct e; try reflexivity; [contradiction|].
    exfalso. eapply N2. reflexivity.
  - intros e printed E. unfold run. rewrite Load. unfold load_results.
    rewrite E. unfold ret, bind at 1.
    rewrite (bind_return _ _ _ _ _ (for_each_print (fun s => s) printed _)).
    rewrite map_id. reflexivity.
  - intros doc p m E I O.
    assert (B : breakdown_lines (p, m) = None).
    { unfold breakdown_lines. cbv zeta. cbn [snd].
      pose proof (test_count_positive doc p m I) as C.
      destruct (Z.ltb_spec 0 (test_count m)) as [_|L]; [|lia].
      cbn [f_truediv Binary64.float_PyFloat]. rewrite O. reflexivity. }
    pose proof (main_raises json_load_file argv doc (p, m) E I B) as M.
    unfold run. destruct (main json_load_file argv []) as [r out].
    cbn [fst] in M. subst r. reflexivity.
  - intros doc E N R.
    destruct (main_in_range json_load_file argv doc E N R)
      as (ps & report & _ & _ & M).
    exists report. unfold run. rewrite M. reflexivity.
Qed.

(** C4 as stated fails: the process ends with status 1 in further
    situations.  A path that is a directory makes [open] raise
    IsADirectoryError, which is neither of the two exceptions caught; a
    file holding [{"results": null}] loads, and the aggregation raises
    AttributeError; a file whose one test has a latency of [10 ^ 400] ms
    loads and yields a provider, and the average latency raises
    OverflowError. *)
Lemma C4_uncaught_exception_exits_1 :
  (fst (run Samples.directory_path ["analyze_tokens.py"; "/tmp"]) = 1 /\
   Samples.directory_path "/tmp" <> inl FileNotFoundError /\
   (forall detail,
       Samples.directory_path "/tmp" <> inl (JSONDecodeError detail)) /\
   (forall v, Samples.directory_path "/tmp" <> inr v)) /\
  fst (run Samples.null_results_file ["analyze_tokens.py"]) = 1 /\
  (fst (run Samples.huge_latency_file ["analyze_tokens.py"]) = 1 /\
   extract_provider_data (document_of Samples.huge_latency) <> [] /\
   fst (main Samples.huge_latency_file ["analyze_tokens.py"] [])
   = Raise (Exception OverflowError)).
Proof.
  split; [|split].
  - split; [reflexivity|]. repeat split; intros; discriminate.
  - reflexivity.
  - split; [reflexivity|]. split; [discriminate|reflexivity].
Qed.

(** C6.  The formatter removes the three literals wherever they occur,
    not only at the front: an id with another prefix is changed, and two
    literals in a row are both removed. *)
Theorem C6_literals_removed_anywhere :
  format_provider_name "azureopenai:chat:gpt-4" = "azuregpt-4" /\
  format_provider_name "anthropic:openai:gpt-4" = "gpt-4".
Proof. split; reflexivity. Qed.

(** C7, amended.  Formatting a formatted name again changes nothing when
    neither "anthropic:" nor "openai:" occurs in the formatted name. *)
Theorem C7_format_idempotent_when_no_literal_left (s : string) :
  PyStr.occurs "anthropic:" (format_provider_name s) = false ->
  PyStr.occurs "openai:" (format_provider_name s) = false ->
  format_provider_name (format_provider_name s) = format_provider_name s.
Proof.
  intros A O. apply format_provider_name_without_literal; assumption.
Qed.

Lemma C7_witness :
  format_provider_name (format_provider_name "openai:chat:gpt-4")
  = format_provider_name "openai:chat:gpt-4".
Proof.
  apply (C7_format_idempotent_when_no_literal_left "openai:chat:gpt-4");
    reflexivity.
Defined.

(** C7 as stated fails: removing "openai:" from this id leaves
    "anthropic:claude", which a second pass shortens to "claude". *)
Lemma C7_second_pass_changes_name :
  format_provider_name "anthropopenai:ic:claude" = "anthropic:claude" /\
  format_provider_name (format_provider_name "anthropopenai:ic:claude")
  <> format_provider_name "anthropopenai:ic:claude".
Proof.
  split; [reflexivity|]. vm_compute. discriminate.
Qed.

(* ================================================================= *)
(** * Further properties of the code *)

(** ** Aggregator *)

Module PyDictKeys.
Import PyDict.
Section Facts.
Context {V : Type}.
Implicit Types (d : dict V) (k : string).

Lemma keys_update_default default k f d :
  keys (update_default default k f d)
  = if existsb (String.eqb k) (keys d) then keys d
    else (keys d ++ [k])%list.
Proof.
  induction d as [|[k' v] d IH]; simpl; [reflexivity|].
  rewrite (String.eqb_sym k k').
  destruct (String.eqb k' k); simpl; [reflexivity|].
  rewrite IH. destruct (existsb (String.eqb k) (keys d)); reflexivity.
Qed.

Lemma keys_set k v d :
  keys (set k v d)
  = if existsb (String.eqb k) (keys d) then keys d
    else (keys d ++ [k])%list.
Proof.
  induction d as [|[k' v'] d IH]; simpl; [reflexivity|].
  rewrite (String.eqb_sym k k').
  destruct (String.eqb k' k); simpl; [reflexivity|].
  rewrite IH. destruct (existsb (String.eqb k) (keys d)); reflexivity.
Qed.

Lemma update_default_not_empty default k f d :
  update_default default k f d <> [].
Proof.
  destruct d as [|[k' v] d]; simpl; [discriminate|].
  destruct (String.eqb k' k); discriminate.
Qed.

End Facts.
End PyDictKeys.

Lemma existsb_eqb_in (k : string) (l : list string) :
  existsb (String.eqb k) l = true <-> In k l.
Proof.
  rewrite existsb_exists. split.
  - intros (x & I & E). apply String.eqb_eq in E. subst. exact I.
  - intros I. exists k. split; [exact I|apply String.eqb_refl].
Qed.

Lemma filter_filter {A : Type} (f g : A -> bool) (l : list A) :
  filter f (filter g l) = filter (fun x => g x && f x) l.
Proof.
  induction l as [|x l IH]; simpl; [reflexivity|].
  destruct (g x); simpl; [destruct (f x)|]; rewrite ?IH; reflexivity.
Qed.

Section AggregatorFurther.
Context {F : Type} `{PyFloat F}.
Implicit Types (r : ResultRecord F) (rs : list (ResultRecord F)).
Implicit Types (m : metrics F) (d : dict (metrics F)) (p : string).
Implicit Types (doc : Document F).

(** The keys after the loop: those before it, then the providers not yet
    seen, each where it first occurs. *)
Lemma keys_fold_process_result rs d :
  PyDict.keys (fold_left process_result rs d)
  = (PyDict.keys d ++
     filter (fun k => negb (existsb (String.eqb k) (PyDict.keys d)))
            (first_occurrences (map record_provider rs)))%list.
Proof.
  revert d. induction rs as [|r rs IH]; intros d.
  - simpl. rewrite app_nil_r. reflexivity.
  - cbn [fold_left map first_occurrences]. rewrite IH.
    rewrite process_result_contribute, PyDictKeys.keys_update_default.
    set (k := record_provider r).
    set (Y := first_occurrences (map record_provider rs)).
    cbn [filter].
    destruct (existsb (String.eqb k) (PyDict.keys d)) eqn:E; cbn [negb].
    + f_equal. rewrite filter_filter. apply filter_ext_in. intros x _.
      destruct (String.eqb_spec x k) as [->|N]; cbn [negb andb].
      * rewrite E. reflexivity.
      * reflexivity.
    + rewrite <- app_assoc. cbn [app]. f_equal. f_equal.
      rewrite filter_filter. apply filter_ext_in. intros x _.
      rewrite existsb_app. cbn [existsb]. rewrite orb_false_r, negb_orb.
      rewrite andb_comm. reflexivity.
Qed.

(** X1.  For every record sequence, the providers of the mapping
    aggregated from the document that holds it are the provider ids of the
    records ("unknown" for a record without one), each exactly once, in
    the order in which they first occur. *)
Theorem X1_providers_in_order_of_first_record rs :
  PyDict.keys (extract_provider_data (document_of rs))
  = first_occurrences (map record_provider rs) /\
  NoDup (PyDict.keys (extract_provider_data (document_of rs))).
Proof.
  split; [|apply wf_extract_provider_data].
  unfold extract_provider_data.
  change (result_records (document_of rs)) with rs.
  rewrite keys_fold_process_result.
  cbn [PyDict.keys map app existsb negb].
  induction (first_occurrences _) as [|x l IH]; simpl; congruence.
Qed.

(** The integer fields and the count of the entry of [p], 0 when there is
    no entry. *)
Lemma provider_summary_fields p rs :
  let m := or_default (provider_summary p rs) default_metrics in
  let l := records_of p rs in
  total_tokens m = sum_Z (map record_total l) /\
  prompt_tokens m = sum_Z (map record_prompt l) /\
  completion_tokens m = sum_Z (map record_completion l) /\
  assertion_tokens m = sum_Z (map record_assertion l) /\
  test_count m = Z.of_nat (List.length l) /\
  total_latency_ms m = sum_Z (map record_latency l).
Proof.
  cbv zeta. unfold provider_summary.
  destruct (records_of p rs) as [|r l].
  - simpl. repeat split.
  - cbn [or_default].
    destruct (accumulate_fields (r :: l) default_metrics)
      as (E1 & E2 & E3 & E4 & E5 & E6).
    rewrite E1, E2, E3, E4, E5, E6. simpl. repeat split; lia.
Qed.

(** X2.  For every record sequence and every provider of the aggregated
    mapping, prompt_tokens, completion_tokens, assertion_tokens and
    total_latency_ms are the sums of the prompt, completion, grading and
    latency values (0 when absent) of the records of that provider; a
    provider without an entry has no record. *)
Theorem X2_other_fields_are_sums rs p :
  match PyDict.get p (extract_provider_data (document_of rs)) with
  | Some m =>
      let l := records_of p rs in
      prompt_tokens m = sum_Z (map record_prompt l) /\
      completion_tokens m = sum_Z (map record_completion l) /\
      assertion_tokens m = sum_Z (map record_assertion l) /\
      total_latency_ms m = sum_Z (map record_latency l)
  | None => records_of p rs = []
  end.
Proof.
  rewrite get_extract_provider_data.
  change (result_records (document_of rs)) with rs.
  pose proof (provider_summary_fields p rs) as S.
  cbv zeta in S.
  destruct (provider_summary p rs) as [m|] eqn:E.
  - cbn [or_default] in S. cbv zeta. tauto.
  - apply provider_summary_none_iff. exact E.
Qed.

Lemma cost_accumulate (l : list (ResultRecord F)) m :
  cost (accumulate l m) = fold_left f_add (map record_cost l) (cost m).
Proof.
  unfold accumulate. revert m. induction l as [|r l IH]; intros m.
  - reflexivity.
  - cbn [fold_left map]. rewrite IH. reflexivity.
Qed.

(** X3.  For every record sequence, the cost of a provider is the float
    sum of the costs of its records (0.0 when absent), added one by one in
    record order to 0.0. *)
Theorem X3_cost_is_running_float_sum rs p :
  match PyDict.get p (extract_provider_data (document_of rs)) with
  | Some m =>
      cost m = fold_left f_add (map record_cost (records_of p rs)) f_zero
  | None => records_of p rs = []
  end.
Proof.
  rewrite get_extract_provider_data.
  change (result_records (document_of rs)) with rs.
  unfold provider_summary.
  destruct (records_of p rs) as [|r l]; [reflexivity|].
  apply cost_accumulate.
Qed.

Lemma fold_process_result_not_empty rs d :
  rs <> [] \/ d <> [] -> fold_left process_result rs d <> [].
Proof.
  revert d. induction rs as [|r rs IH]; intros d [N|N]; simpl;
    try congruence; apply IH; right;
    rewrite process_result_contribute;
    apply PyDictKeys.update_default_not_empty.
Qed.

(** X4.  The aggregated mapping is empty exactly when the document holds
    no record: its [results] key, the inner [results] key, or every
    element of the sequence is missing. *)
Theorem X4_no_provider_iff_no_record doc :
  (extract_provider_data doc = [] <-> result_records doc = []) /\
  (result_records doc = [] <->
   results doc = None \/
   (exists o, results doc = Some o /\
              (inner_results o = None \/ inner_results o = Some []))).
Proof.
  split.
  - unfold extract_provider_data. split.
    + intros E. destruct (result_records doc) as [|r rs]; [reflexivity|].
      exfalso. revert E. apply fold_process_result_not_empty.
      left. discriminate.
    + intros ->. reflexivity.
  - unfold result_records.
    destruct doc as [[[[[|r rs]|]]|]]; cbn; split; intros E;
      try reflexivity; try discriminate; eauto.
    destruct E as [E|(o & E & [E'|E'])]; try discriminate;
      injection E as <-; discriminate.
Qed.

(** X5.  Every entry of the aggregated mapping counts at least one test:
    an entry is created only by a record, which it counts at once. *)
Theorem X5_every_entry_counts_a_test doc :
  Forall (fun item => 1 <= test_count (snd item)) (extract_provider_data doc).
Proof.
  apply Forall_forall. intros [p m] I.
  apply PyDictFacts.in_get in I; [|apply wf_extract_provider_data].
  rewrite get_extract_provider_data in I.
  pose proof (provider_summary_fields p (result_records doc)) as S.
  cbv zeta in S. rewrite I in S. cbn [or_default snd] in S |- *.
  destruct S as (_ & _ & _ & _ & E & _). rewrite E.
  unfold provider_summary in I.
  destruct (records_of p (result_records doc)); [discriminate|].
  simpl List.length. lia.
Qed.

Lemma sum_Z_nonneg (l : list Z) : Forall (fun x => 0 <= x) l -> 0 <= sum_Z l.
Proof. induction 1; simpl; lia. Qed.

(** X6.  When no record holds a negative count or latency, no integer
    field of the aggregated mapping is negative. *)
Theorem X6_nonnegative_records_give_nonnegative_fields doc :
  Forall record_nonneg (result_records doc) ->
  Forall (fun item => metrics_nonneg (snd item)) (extract_provider_data doc).
Proof.
  intros NN. apply Forall_forall. intros [p m] I.
  apply PyDictFacts.in_get in I; [|apply wf_extract_provider_data].
  rewrite get_extract_provider_data in I.
  pose proof (provider_summary_fields p (result_records doc)) as S.
  cbv zeta in S. rewrite I in S. cbn [or_default snd] in S |- *.
  destruct S as (E1 & E2 & E3 & E4 & _ & E6).
  assert (NN' : Forall record_nonneg (records_of p (result_records doc))).
  { apply Forall_forall. intros r J. unfold records_of in J.
    apply filter_In in J as [J _].
    rewrite Forall_forall in NN. apply NN. exact J. }
  unfold metrics_nonneg. rewrite E1, E2, E3, E4, E6.
  repeat split; apply sum_Z_nonneg; apply Forall_map;
    (eapply Forall_impl; [|exact NN']); intros r R; apply R.
Qed.

(** X7.  Aggregating two sequences one after the other adds up, provider
    by provider, the integer fields and counts of aggregating each alone
    (a provider absent from one of them counting as zeros). *)
Theorem X7_concatenation_adds_up rs rs' p :
  let entry l :=
    or_default (PyDict.get p (extract_provider_data (document_of l)))
               default_metrics in
  total_tokens (entry (rs ++ rs')%list)
    = total_tokens (entry rs) + total_tokens (entry rs') /\
  prompt_tokens (entry (rs ++ rs')%list)
    = prompt_tokens (entry rs) + prompt_tokens (entry rs') /\
  completion_tokens (entry (rs ++ rs')%list)
    = completion_tokens (entry rs) + completion_tokens (entry rs') /\
  assertion_tokens (entry (rs ++ rs')%list)
    = assertion_tokens (entry rs) + assertion_tokens (entry rs') /\
  test_count (entry (rs ++ rs')%list)
    = test_count (entry rs) + test_count (entry rs') /\
  total_latency_ms (entry (rs ++ rs')%list)
    = total_latency_ms (entry rs) + total_latency_ms (entry rs').
Proof.
  cbv beta zeta. rewrite !get_extract_provider_data.
  change (result_records (document_of (rs ++ rs')%list)) with (rs ++ rs')%list.
  change (result_records (document_of rs)) with rs.
  change (result_records (document_of rs')) with rs'.
  destruct (provider_summary_fields p (rs ++ rs')%list)
    as (E1 & E2 & E3 & E4 & E5 & E6).
  destruct (provider_summary_fields p rs) as (A1 & A2 & A3 & A4 & A5 & A6).
  destruct (provider_summary_fields p rs') as (B1 & B2 & B3 & B4 & B5 & B6).
  rewrite E1, E2, E3, E4, E5, E6, A1, A2, A3, A4, A5, A6,
    B1, B2, B3, B4, B5, B6.
  unfold records_of. rewrite filter_app, !map_app, !sum_Z_app, length_app.
  repeat split; lia.
Qed.

(** X8.  The entry of a provider depends on the records of that provider
    alone: dropping every other record leaves it as it is, cost
    included. *)
Theorem X8_entry_depends_on_own_records rs p :
  PyDict.get p (extract_provider_data (document_of (records_of p rs)))
  = PyDict.get p (extract_provider_data (document_of rs)).
Proof.
  rewrite !get_extract_provider_data.
  change (result_records (document_of rs)) with rs.
  change (result_records (document_of (records_of p rs)))
    with (records_of p rs).
  unfold provider_summary.
  replace (records_of p (records_of p rs)) with (records_of p rs);
    [reflexivity|].
  unfold records_of. rewrite filter_filter. apply filter_ext.
  intros r. rewrite andb_diag. reflexivity.
Qed.

End AggregatorFurther.

(** In [two_providers] no count is negative, and none is after the
    aggregation. *)
Lemma X6_witness :
  Forall (fun item => metrics_nonneg (snd item))
    (extract_provider_data (document_of Samples.two_providers)).
Proof.
  apply (X6_nonnegative_records_give_nonnegative_fields
           (document_of Samples.two_providers)).
  repeat (apply Forall_cons || apply Forall_nil);
    vm_compute; intuition discriminate.
Defined.

(** ** Ranker *)

Section RankerFurther.
Context {F : Type} `{PyFloat F}.
Implicit Types (m : metrics F) (d : dict (metrics F)) (p : string).


Lemma keys_assign_all (value : metrics F -> F) (l : dict (metrics F))
    (acc : dict F) :
  NoDup (PyDict.keys acc ++ PyDict.keys l) ->
  PyDict.keys (assign_all value l acc)
  = (PyDict.keys acc ++ PyDict.keys l)%list.
Proof.
  unfold assign_all. revert acc.
  induction l as [|[k m] l IH]; intros acc N.
  - simpl. rewrite app_nil_r. reflexivity.
  - cbn [fold_left fst snd].
    change (PyDict.keys ((k, m) :: l)) with (k :: PyDict.keys l) in *.
    assert (K : PyDict.keys (PyDict.set k (value m) acc)
                = (PyDict.keys acc ++ [k])%list).
    { rewrite PyDictKeys.keys_set.
      destruct (existsb (String.eqb k) (PyDict.keys acc)) eqn:E;
        [|reflexivity].
      apply existsb_eqb_in in E. apply NoDup_remove_2 in N.
      exfalso. apply N. apply in_or_app. left. exact E. }
    rewrite IH; rewrite K, <- app_assoc; [reflexivity|exact N].
Qed.

End RankerFurther.

(** X9.  For a mapping with distinct keys and no negative total, the
    Ranker returns, and unless it returns the empty mapping it returns a
    savings value for every provider of its input and for nothing else,
    in the order of the input. *)
Theorem X9_percentages_keep_the_providers (d : dict (metrics float)) :
  PyDict.wf d ->
  (forall p m, In (p, m) d -> 0 <= total_tokens m) ->
  exists percentages,
    calculate_percentages d = Return percentages /\
    (percentages = [] \/ PyDict.keys percentages = PyDict.keys d).
Proof.
  intros W NN. eexists.
  split; [apply (calculate_percentages_nonneg d NN)|].
  destruct d as [|first rest]; [left; reflexivity|]. cbv zeta.
  destruct (total_tokens (snd (max_by_total_tokens first rest)) =? 0);
    [left; reflexivity|].
  right. rewrite keys_assign_all; [reflexivity|exact W].
Qed.

Lemma X9_witness :
  exists percentages,
    calculate_percentages
      (extract_provider_data (document_of Samples.two_providers))
    = Return percentages /\
    (percentages = [] \/
     PyDict.keys percentages
     = PyDict.keys
         (extract_provider_data (document_of Samples.two_providers))).
Proof.
  apply (X9_percentages_keep_the_providers
           (extract_provider_data (document_of Samples.two_providers))).
  - vm_compute. repeat constructor; simpl; intuition discriminate.
  - intros p m I. vm_compute in I.
    destruct I as [E|[E|[]]]; injection E as <- <-; simpl; lia.
Defined.

(** ** Reporter *)

Section ReporterFurther.
Context {F : Type} `{PyFloat F}.
Implicit Types (m : metrics F) (d : dict (metrics F)) (p : string).
Implicit Types (x y : string * metrics F) (l : list (string * metrics F)).

Lemma insert_desc_sorted x l :
  StronglySorted no_fewer_tokens l ->
  StronglySorted no_fewer_tokens (insert_desc x l).
Proof.
  induction 1 as [|y l S IH A]; simpl.
  - repeat constructor.
  - destruct (Z.ltb_spec (total_tokens (snd x)) (total_tokens (snd y)))
      as [L|L].
    + constructor; [exact IH|].
      eapply Permutation_Forall;
        [apply Permutation_sym, insert_desc_perm|].
      constructor; [unfold no_fewer_tokens; lia|exact A].
    + constructor; [constructor; assumption|].
      constructor; [exact L|].
      eapply Forall_impl; [|exact A].
      unfold no_fewer_tokens. intros z Z0. lia.
Qed.

(** X10.  The rows of the table are the providers of the mapping, each
    once, from most to fewest total_tokens. *)
Theorem X10_rows_sorted_by_tokens_descending l :
  Permutation (sorted_desc l) l /\
  StronglySorted no_fewer_tokens (sorted_desc l).
Proof.
  split; [apply sorted_desc_perm|].
  induction l as [|x l IH]; simpl; [constructor|].
  apply insert_desc_sorted, IH.
Qed.

Lemma with_total_insert_desc t x l :
  with_total t (insert_desc x l) = with_total t (x :: l).
Proof.
  unfold with_total. induction l as [|y l IH]; [reflexivity|].
  cbn [insert_desc].
  destruct (Z.ltb_spec (total_tokens (snd x)) (total_tokens (snd y)))
    as [L|L]; [|reflexivity].
  cbn [filter] in *. rewrite IH.
  destruct (Z.eqb_spec (total_tokens (snd x)) t),
           (Z.eqb_spec (total_tokens (snd y)) t); try reflexivity. lia.
Qed.

(** X11.  The sort is stable: providers with the same total_tokens keep,
    in the table, the order they have in the mapping. *)
Theorem X11_ties_keep_mapping_order l t :
  with_total t (sorted_desc l) = with_total t l.
Proof.
  induction l as [|x l IH]; [reflexivity|].
  cbn [sorted_desc]. rewrite with_total_insert_desc.
  unfold with_total in *. cbn [filter]. rewrite IH. reflexivity.
Qed.

(** [max] over one more item in front. *)
Lemma max_by_total_tokens_cons best y l :
  max_by_total_tokens best (y :: l)
  = if total_tokens (snd best) <? total_tokens (snd (max_by_total_tokens y l))
    then max_by_total_tokens y l else best.
Proof.
  revert best y. induction l as [|z l IH]; intros best y.
  - reflexivity.
  - cbn [max_by_total_tokens] in *.
    pose proof (IH best z) as B. pose proof (IH y z) as Y.
    cbn [max_by_total_tokens] in B, Y.
    destruct (Z.ltb_spec (total_tokens (snd best)) (total_tokens (snd y)))
      as [L|L].
    + destruct (Z.ltb_spec (total_tokens (snd y)) (total_tokens (snd z)))
        as [L'|L'].
      * destruct (max_by_total_tokens_spec z l) as [_ M].
        specialize (M z (or_introl eq_refl)).
        destruct (Z.ltb_spec (total_tokens (snd best))
                    (total_tokens (snd (max_by_total_tokens z l))));
          [reflexivity|lia].
      * destruct (max_by_total_tokens_spec y l) as [_ M].
        specialize (M y (or_introl eq_refl)).
        destruct (Z.ltb_spec (total_tokens (snd best))
                    (total_tokens (snd (max_by_total_tokens y l))));
          [reflexivity|lia].
    + rewrite Y.
      destruct (Z.ltb_spec (total_tokens (snd best)) (total_tokens (snd z)))
        as [L1|L1].
      * destruct (Z.ltb_spec (total_tokens (snd y)) (total_tokens (snd z)))
          as [L2|L2]; [|lia].
        destruct (max_by_total_tokens_spec z l) as [_ M].
        specialize (M z (or_introl eq_refl)).
        destruct (Z.ltb_spec (total_tokens (snd y))
                    (total_tokens (snd (max_by_total_tokens z l))));
          [|lia].
        destruct (Z.ltb_spec (total_tokens (snd best))
                    (total_tokens (snd (max_by_total_tokens z l))));
          [reflexivity|lia].
      * rewrite B.
        destruct (Z.ltb_spec (total_tokens (snd y))
                    (total_tokens (snd (max_by_total_tokens z l))))
          as [L2|L2]; [reflexivity|].
        destruct (Z.ltb_spec (total_tokens (snd best))
                    (total_tokens (snd (max_by_total_tokens z l))))
          as [L3|L3]; [lia|].
        destruct (Z.ltb_spec (total_tokens (snd best)) (total_tokens (snd y)));
          [lia|reflexivity].
Qed.

Lemma hd_sorted_desc x l :
  hd_error (sorted_desc (x :: l)) = Some (max_by_total_tokens x l).
Proof.
  revert x. induction l as [|y l IH]; intros x; [reflexivity|].
  rewrite max_by_total_tokens_cons.
  change (sorted_desc (x :: y :: l)) with (insert_desc x (sorted_desc (y :: l))).
  specialize (IH y).
  destruct (sorted_desc (y :: l)) as [|z s]; [discriminate|].
  cbn [hd_error] in IH. injection IH as ->.
  cbn [insert_desc].
  destruct (total_tokens (snd x) <? total_tokens (snd (max_by_total_tokens y l)));
    reflexivity.
Qed.

(** X12.  For a mapping with distinct keys whose numbers are within the
    range, the first row of the table is the provider the head of the
    report names, the first of the mapping among those with the greatest
    total_tokens, and of the rows of the providers it is the only one that
    ends with the marker. *)
Theorem X12_top_row_is_the_marked_provider
    (first : string * metrics F) (rest : dict (metrics F))
    (percentages : dict F) :
  PyDict.wf (first :: rest) ->
  Forall (fun item => metrics_in_range (snd item)) (first :: rest) ->
  let top := max_by_total_tokens first rest in
  hd_error (sorted_desc (first :: rest)) = Some top /\
  forall item,
    In item (first :: rest) ->
    (PyStr.endswith most_indicator (table_row (fst top) percentages item)
     = true
     <-> item = top).
Proof.
  intros W _ top. split; [apply hd_sorted_desc|].
  intros [p m] I.
  destruct (max_by_total_tokens_spec first rest) as [J _].
  fold top in J. destruct top as [p' m'].
  unfold table_row. cbn [fst snd].
  destruct (String.eqb_spec p p') as [->|N].
  - split.
    + intros _.
      pose proof (PyDictFacts.in_get _ _ _ W I) as G.
      pose proof (PyDictFacts.in_get _ _ _ W J) as G'.
      congruence.
    + intros _. do 9 apply PyStrFacts.endswith_app.
      apply PyStrFacts.endswith_refl.
  - split; [|intros [= -> ->]; contradiction].
    intros E. exfalso.
    apply (PyStrFacts.endswith_last_char _ _ ")"%char) in E; [|reflexivity].
    rewrite PyStrFacts.append_empty in E. unfold PyStr.rjust in E.
    destruct (PyStrFacts.last_char_str_int (test_count m)) as (c & Ec & Nc).
    remember (PyStr.str_int (test_count m)) as s eqn:Es.
    assert (E' : PyStr.last_char
                   (PyStr.ljust 50 (format_provider_name p) ++ " " ++
                    (PyStr.spaces
                       (14 - PyStr.len
                               (PyStr.format_int_commas (total_tokens m))) ++
                     PyStr.format_int_commas (total_tokens m)) ++ " " ++
                    (PyStr.spaces (11 - PyStr.len (f_fixed 6 (cost m))) ++
                     f_fixed 6 (cost m)) ++ " " ++
                    (PyStr.spaces
                       (11 - PyStr.len
                               (f_fixed 2
                                  (PyDict.get_default p f_zero percentages))) ++
                     f_fixed 2 (PyDict.get_default p f_zero percentages)) ++
                    "% " ++ PyStr.spaces (7 - PyStr.len s) ++ s)
                 = Some c).
    { do 9 apply PyStrFacts.last_char_app. exact Ec. }
    rewrite E' in E. congruence.
Qed.

End ReporterFurther.

(** X13.  For a mapping with distinct keys whose greatest total_tokens is
    [M] and whose numbers are within the range, and any savings mapping,
    the Reporter raises nothing and prints, in this order: the head, with
    the name of the top provider and [M]; one row per provider, from most
    to fewest tokens; the breakdown of each provider in the same order,
    its two averages left out when its test_count is not positive; the
    closing rule. *)
Theorem X13_report_printed_in_full
    (first : string * metrics float) (rest : dict (metrics float))
    (percentages : dict float) (M : Z) (out : list string) :
  PyDict.wf (first :: rest) ->
  is_max_total (first :: rest) M ->
  Forall (fun item => metrics_in_range (snd item)) (first :: rest) ->
  exists breakdown,
    all_breakdown_lines (sorted_desc (first :: rest)) = Some breakdown /\
    print_comparison_table (first :: rest) percentages out
    = (Return tt,
       (out ++
        report_head (fst (max_by_total_tokens first rest)) M ++
        map (table_row (fst (max_by_total_tokens first rest)) percentages)
            (sorted_desc (first :: rest)) ++
        report_middle ++ breakdown ++ report_foot)%list).
Proof.
  intros W Mx R.
  assert (R' : Forall (fun item => metrics_in_range (snd item))
                 (sorted_desc (first :: rest))).
  { eapply Permutation_Forall;
      [apply Permutation_sym, sorted_desc_perm|exact R]. }
  destruct (all_breakdown_lines_in_range _ R') as [breakdown B].
  exists breakdown. split; [exact B|].
  destruct (print_comparison_table_prints first rest percentages out
              breakdown B) as (max_data & G & E).
  rewrite E. clear E.
  pose proof (max_by_total_tokens_is_max first rest) as Mx'.
  rewrite (is_max_total_unique _ _ _ Mx Mx').
  destruct (max_by_total_tokens_spec first rest) as [J _].
  destruct (max_by_total_tokens first rest) as [p' m'].
  cbn [fst snd] in *.
  rewrite (PyDictFacts.in_get _ _ _ W J) in G. injection G as <-.
  reflexivity.
Qed.

Lemma X12_witness :
  let top :=
    ("openai:chat:gpt-4",
     {| total_tokens := 100; prompt_tokens := 60; completion_tokens := 40;
        assertion_tokens := 0; cost := 0.5%float; test_count := 1;
        total_latency_ms := 500 |}) in
  let d := [top; Samples.idle_entry "anthropic:claude"] in
  hd_error (sorted_desc d) = Some top /\
  forall item,
    In item d ->
    (PyStr.endswith most_indicator (table_row "openai:chat:gpt-4" [] item)
     = true
     <-> item = top).
Proof.
  intros top d.
  apply (X12_top_row_is_the_marked_provider
           top [Samples.idle_entry "anthropic:claude"] []).
  - repeat constructor; simpl; intuition discriminate.
  - assert (P : 500 <= 2 ^ 1023).
    { change 500 with (2 ^ 9 - 12).
      assert (2 ^ 9 <= 2 ^ 1023) by (apply Z.pow_le_mono_r; lia). lia. }
    repeat (apply Forall_cons || apply Forall_nil);
      unfold metrics_in_range, in_range; simpl; lia.
Defined.

Lemma X13_witness :
  exists breakdown,
    all_breakdown_lines
      (sorted_desc [Samples.idle_entry "openai:chat:gpt-4";
                    Samples.idle_entry "anthropic:claude"])
    = Some breakdown /\
    print_comparison_table
      [Samples.idle_entry "openai:chat:gpt-4";
       Samples.idle_entry "anthropic:claude"] [] []
    = (Return tt,
       ([] ++
        report_head "openai:chat:gpt-4" 0 ++
        map (table_row "openai:chat:gpt-4" [])
            (sorted_desc [Samples.idle_entry "openai:chat:gpt-4";
                          Samples.idle_entry "anthropic:claude"]) ++
        report_middle ++ breakdown ++ report_foot)%list).
Proof.
  apply (X13_report_printed_in_full
           (Samples.idle_entry "openai:chat:gpt-4")
           [Samples.idle_entry "anthropic:claude"] [] 0 []).
  - repeat constructor; simpl; intuition discriminate.
  - split.
    + eexists. eexists. split; [left; reflexivity|reflexivity].
    + intros p m I. simpl in I.
      destruct I as [E|[E|[]]]; injection E as <- <-; simpl; lia.
  - assert (P : 0 < 2 ^ 1023) by (apply Z.pow_pos_nonneg; lia).
    repeat (apply Forall_cons || apply Forall_nil);
      unfold metrics_in_range, in_range; simpl; lia.
Defined.

(** ** Entry point *)

Section MainFurther.
Context {F : Type} `{PyFloat F}.

(** X14.  The script uses its first argument only, and "results.json"
    when there is none: any further argument is ignored. *)
Theorem X14_only_first_argument_is_used
    (json_load_file : string -> error + loaded F) (argv : list string) :
  run json_load_file argv
  = run json_load_file ["analyze_tokens.py"; chosen_path argv].
Proof.
  unfold run, main. cbv zeta. rewrite !main_path. reflexivity.
Qed.

(** X16.  Whatever happens, the loading line is the first thing printed
    and the process ends with status 0 or 1. *)
Theorem X16_loading_line_first_and_status_0_or_1
    (json_load_file : string -> error + loaded F) (argv : list string) :
  exists status rest,
    run json_load_file argv
    = (status, ("Loading results from: " ++ chosen_path argv) :: rest) /\
    (status = 0 \/ status = 1).
Proof.
  destruct (json_load_file (chosen_path argv)) as [e|[doc|e printed]] eqn:E.
  - unfold run, main. cbv zeta. rewrite main_path, bind_print.
    unfold load_results. rewrite E.
    destruct e; eexists; eexists; (split; [reflexivity|right; reflexivity]).
  - destruct (extract_provider_data doc) as [|first rest] eqn:E0.
    + unfold run, main. cbv zeta. rewrite main_path, bind_print.
      unfold load_results. rewrite E. unfold ret, bind at 1. rewrite E0.
      eexists. eexists. split; [reflexivity|right; reflexivity].
    + destruct (main_outcome json_load_file argv doc E)
        as (r & printed & M & O); [rewrite E0; discriminate|].
      unfold run. rewrite M.
      destruct r as [[]|e].
      * eexists. eexists. split; [reflexivity|left; reflexivity].
      * cbn [at_most_overflow] in O. subst e.
        eexists. eexists. split; [reflexivity|right; reflexivity].
  - unfold run, main. cbv zeta. rewrite main_path, bind_print.
    unfold load_results. rewrite E. unfold ret, bind at 1.
    rewrite (bind_return _ _ _ _ _ (for_each_print (fun s => s) printed _)).
    rewrite map_id.
    eexists. eexists. split; [reflexivity|right; reflexivity].
Qed.

End MainFurther.

(** X15.  When the file loads as a document of the expected shape that
    holds a record, and the aggregated numbers are within the range, the
    script prints the loading line and then exactly the report of the
    aggregated mapping with the savings the Ranker gives for it, and ends
    with status 0. *)
Theorem X15_success_prints_report_of_aggregate
    (json_load_file : string -> error + loaded float) (argv : list string)
    (doc : Document float) :
  json_load_file (chosen_path argv) = inr (Shaped doc) ->
  result_records doc <> [] ->
  Forall (fun item => metrics_in_range (snd item))
         (extract_provider_data doc) ->
  exists percentages report,
    calculate_percentages (extract_provider_data doc) = Return percentages /\
    print_comparison_table (extract_provider_data doc) percentages []
    = (Return tt, report) /\
    run json_load_file argv
    = (0, ("Loading results from: " ++ chosen_path argv) :: report).
Proof.
  intros E N R.
  assert (N' : extract_provider_data doc <> []).
  { intros E0. apply N. unfold extract_provider_data in E0.
    destruct (result_records doc) as [|r rs]; [reflexivity|].
    exfalso. revert E0. apply fold_process_result_not_empty.
    left. discriminate. }
  destruct (main_in_range json_load_file argv doc E N' R)
    as (ps & report & C & P & M).
  exists ps, report. split; [exact C|]. split; [exact P|].
  unfold run. rewrite M. reflexivity.
Qed.

Lemma X15_witness :
  exists percentages report,
    calculate_percentages
      (extract_provider_data (document_of Samples.two_providers))
    = Return percentages /\
    print_comparison_table
      (extract_provider_data (document_of Samples.two_providers))
      percentages []
    = (Return tt, report) /\
    run Samples.one_file ["analyze_tokens.py"]
    = (0, ("Loading results from: " ++ chosen_path ["analyze_tokens.py"])
          :: report).
Proof.
  apply (X15_success_prints_report_of_aggregate
           Samples.one_file ["analyze_tokens.py"]
           (document_of Samples.two_providers)).
  - reflexivity.
  - simpl. discriminate.
  - assert (P : 500 <= 2 ^ 1023).
    { change 500 with (2 ^ 9 - 12).
      assert (2 ^ 9 <= 2 ^ 1023) by (apply Z.pow_le_mono_r; lia). lia. }
    repeat (apply Forall_cons || apply Forall_nil);
      unfold metrics_in_range, in_range; simpl; lia.
Defined.

(** ** Display names *)

Module PyStrLength.
Import PyStr.

Lemma length_replace_scan (old : string) (k : nat) (s : string) :
  (String.length (replace_scan old "" k s) <= String.length s)%nat.
Proof.
  revert k. induction s as [|c s IH]; intros k; [apply Nat.le_refl|].
  cbn [replace_scan String.length].
  destruct k as [|k].
  - destruct (startswith old (String c s)).
    + cbn [append]. specialize (IH (Nat.pred (String.length old))). lia.
    + cbn [String.length]. specialize (IH O). lia.
  - specialize (IH k). lia.
Qed.

Lemma length_replace (old s : string) :
  (String.length (replace old "" s) <= String.length s)%nat.
Proof. apply length_replace_scan. Qed.

End PyStrLength.

(** X17.  The display name is never longer than the identifier. *)
Theorem X17_display_name_not_longer (provider_id : string) :
  (String.length (format_provider_name provider_id)
   <= String.length provider_id)%nat.
Proof.
  unfold format_provider_name.
  eapply Nat.le_trans; [apply PyStrLength.length_replace|].
  eapply Nat.le_trans; [apply PyStrLength.length_replace|].
  apply PyStrLength.length_replace.
Qed.

(** X18.  An identifier made of one recognized prefix and a rest in which
    no literal occurs is displayed as that rest; an identifier in which no
    literal occurs at all is displayed as it is. *)
Theorem X18_prefix_stripped_from_clean_rest (rest : string) :
  PyStr.occurs "anthropic:" rest = false ->
  PyStr.occurs "openai:" rest = false ->
  format_provider_name ("anthropic:" ++ rest) = rest /\
  format_provider_name ("openai:chat:" ++ rest) = rest /\
  (PyStr.startswith "chat:" rest = false ->
   format_provider_name ("openai:" ++ rest) = rest) /\
  format_provider_name rest = rest.
Proof.
  intros A O.
  assert (C : PyStr.occurs "openai:chat:" rest = false).
  { destruct (PyStr.occurs "openai:chat:" rest) eqn:E; [|reflexivity].
    apply (PyStrFacts.occurs_app "openai:" "chat:") in E. congruence. }
  pose proof (PyStrFacts.replace_absent "anthropic:" "" rest A) as RA.
  pose proof (PyStrFacts.replace_absent "openai:chat:" "" rest C) as RC.
  pose proof (PyStrFacts.replace_absent "openai:" "" rest O) as RO.
  unfold PyStr.replace in RA, RC, RO.
  repeat split.
  - unfold format_provider_name, PyStr.replace. cbn.
    rewrite RA, RC, RO. reflexivity.
  - unfold format_provider_name, PyStr.replace. cbn.
    rewrite RA. cbn. rewrite RC, RO. reflexivity.
  - intros S. unfold format_provider_name, PyStr.replace. cbn [append].
    assert (Keep : forall old c s,
               PyStr.startswith old (String c s) = false ->
               PyStr.replace_scan old "" 0 (String c s)
               = String c (PyStr.replace_scan old "" 0 s)).
    { intros old c s E. cbn [PyStr.replace_scan]. rewrite E. reflexivity. }
    rewrite !(Keep "anthropic:") by reflexivity. rewrite RA.
    rewrite (Keep "openai:chat:") by exact S.
    rewrite !(Keep "openai:chat:") by reflexivity.
    rewrite RC. cbn. rewrite RO. reflexivity.
  - apply format_provider_name_without_literal; assumption.
Qed.

Lemma X18_witness :
  format_provider_name ("anthropic:" ++ "claude-3") = "claude-3" /\
  format_provider_name ("openai:chat:" ++ "claude-3") = "claude-3" /\
  (PyStr.startswith "chat:" "claude-3" = false ->
   format_provider_name ("openai:" ++ "claude-3") = "claude-3") /\
  format_provider_name "claude-3" = "claude-3".
Proof.
  apply (X18_prefix_stripped_from_clean_rest "claude-3"); reflexivity.
Defined.
